(** * PredecirClima: the download pipeline of [Datos.py]

    A shallow embedding of [descargar_datos_historicos] and of the script's
    main block.  The script asks the Open-Meteo archive for hourly weather,
    rescales the two wind columns, renames and reorders the columns,
    reformats the timestamps and writes a CSV file.

    Conventions of the embedding:
    - Python [float] is IEEE binary64, modelled by Rocq's primitive [float];
      Python [int] is [Z].
    - calls into [requests], [pandas] and the operating system are modelled
      by what they do to the values the script hands them; each such model
      states the library behaviour it stands for.
    - effects (the file system, the console, the local variable [response])
      are threaded through a state-and-exception monad [M]. *)

From Stdlib Require Import ZArith List String Ascii Floats Lia Bool.
From stdpp Require Import gmap strings list fin_maps.

Set Warnings "-inexact-float".
Open Scope string_scope.
Open Scope Z_scope.

(** ** Calendar values and [strftime] *)

Module Fecha.

(** [datetime.datetime] without its sub-second part, which no format of the
    script prints. *)
Record datetime := mk_datetime {
  year : Z; month : Z; day : Z; hour : Z; minute : Z; second : Z
}.

Definition es_bisiesto (y : Z) : bool :=
  ((y mod 4 =? 0) && negb (y mod 100 =? 0)) || (y mod 400 =? 0).

Definition dias_del_mes (y m : Z) : Z :=
  match m with
  | 1 | 3 | 5 | 7 | 8 | 10 | 12 => 31
  | 4 | 6 | 9 | 11 => 30
  | 2 => if es_bisiesto y then 29 else 28
  | _ => 0
  end.

(** The values a [datetime] can hold: [MINYEAR = 1], [MAXYEAR = 9999]. *)
Definition valido (t : datetime) : bool :=
  (1 <=? year t) && (year t <=? 9999) &&
  (1 <=? month t) && (month t <=? 12) &&
  (1 <=? day t) && (day t <=? dias_del_mes (year t) (month t)) &&
  (0 <=? hour t) && (hour t <? 24) &&
  (0 <=? minute t) && (minute t <? 60) &&
  (0 <=? second t) && (second t <? 60).

(** The last decimal digit of [n] as a character. *)
Definition digito (n : Z) : ascii :=
  match n mod 10 with
  | 0 => "0" | 1 => "1" | 2 => "2" | 3 => "3" | 4 => "4"
  | 5 => "5" | 6 => "6" | 7 => "7" | 8 => "8" | _ => "9"
  end%char.

Definition valor_digito (c : ascii) : option Z :=
  (if Ascii.eqb c "0" then Some 0 else if Ascii.eqb c "1" then Some 1
   else if Ascii.eqb c "2" then Some 2 else if Ascii.eqb c "3" then Some 3
   else if Ascii.eqb c "4" then Some 4 else if Ascii.eqb c "5" then Some 5
   else if Ascii.eqb c "6" then Some 6 else if Ascii.eqb c "7" then Some 7
   else if Ascii.eqb c "8" then Some 8 else if Ascii.eqb c "9" then Some 9
   else None)%char.

(** The decimal numeral of [n >= 0], and [str.zfill]. *)
Fixpoint decimal_desde (pasos : nat) (n : Z) (acc : string) : string :=
  match pasos with
  | O => acc
  | S pasos' =>
      if n <? 10 then String (digito n) acc
      else decimal_desde pasos' (n / 10) (String (digito n) acc)
  end.

Definition decimal (n : Z) : string :=
  decimal_desde (S (Z.to_nat (Z.log2 n))) n "".

Fixpoint ceros (n : nat) (s : string) : string :=
  match n with
  | O => s
  | S n' => String "0" (ceros n' s)
  end.

Definition zfill (w : nat) (s : string) : string :=
  ceros (w - String.length s) s.

(** Zero-padded decimal fields of width two and four. *)
Definition dos_digitos (n : Z) : string := zfill 2 (decimal n).

Definition cuatro_digitos (n : Z) : string := zfill 4 (decimal n).

(** The directives the script uses: [%Y %m %d %H %M]; as in C, [%%] is a
    percent sign, and a directive the model does not know is kept as
    written. *)
Definition directiva (d : ascii) (t : datetime) : string :=
  (if Ascii.eqb d "Y" then cuatro_digitos (year t)
   else if Ascii.eqb d "m" then dos_digitos (month t)
   else if Ascii.eqb d "d" then dos_digitos (day t)
   else if Ascii.eqb d "H" then dos_digitos (hour t)
   else if Ascii.eqb d "M" then dos_digitos (minute t)
   else if Ascii.eqb d "%" then "%"%string
   else String "%" (String d ""))%char.

Fixpoint strftime (t : datetime) (fmt : string) : string :=
  match fmt with
  | EmptyString => ""
  | String c resto =>
      if Ascii.eqb c "%"%char then
        match resto with
        | EmptyString => "%"
        | String d resto' => directiva d t ++ strftime t resto'
        end
      else String c (strftime t resto)
  end.

(** Reading back: [n] decimal digits from the front of [s]. *)
Fixpoint leer_digitos (n : nat) (acc : Z) (s : string) : option (Z * string) :=
  match n with
  | O => Some (acc, s)
  | S n' =>
      match s with
      | EmptyString => None
      | String c s' =>
          match valor_digito c with
          | Some v => leer_digitos n' (10 * acc + v) s'
          | None => None
          end
      end
  end.

Definition poner_campo (d : ascii) (v : Z) (t : datetime) : option datetime :=
  (if Ascii.eqb d "Y" then
     Some (mk_datetime v (month t) (day t) (hour t) (minute t) (second t))
   else if Ascii.eqb d "m" then
     Some (mk_datetime (year t) v (day t) (hour t) (minute t) (second t))
   else if Ascii.eqb d "d" then
     Some (mk_datetime (year t) (month t) v (hour t) (minute t) (second t))
   else if Ascii.eqb d "H" then
     Some (mk_datetime (year t) (month t) (day t) v (minute t) (second t))
   else if Ascii.eqb d "M" then
     Some (mk_datetime (year t) (month t) (day t) (hour t) v (second t))
   else None)%char.

Definition ancho (d : ascii) : nat := if Ascii.eqb d "Y"%char then 4%nat else 2%nat.

Fixpoint strptime_desde (t : datetime) (s fmt : string) : option datetime :=
  match fmt with
  | EmptyString => match s with EmptyString => Some t | _ => None end
  | String c resto =>
      if Ascii.eqb c "%"%char then
        match resto with
        | EmptyString => None
        | String d resto' =>
            match leer_digitos (ancho d) 0 s with
            | Some (v, s') =>
                match poner_campo d v t with
                | Some t' => strptime_desde t' s' resto'
                | None => None
                end
            | None => None
            end
        end
      else
        match s with
        | String c' s' => if Ascii.eqb c c' then strptime_desde t s' resto else None
        | EmptyString => None
        end
  end.

(** [datetime.strptime(s, fmt)] for formats made of the five directives
    above, each read at its full width: fields that are not given default to
    1900-01-01 00:00:00, and an impossible date is refused. *)
Definition strptime (s fmt : string) : option datetime :=
  match strptime_desde (mk_datetime 1900 1 1 0 0 0) s fmt with
  | Some t => if valido t then Some t else None
  | None => None
  end.

(** The layout [YYYY-MM-DDTHH:MM]: digits where the letters stand, the
    punctuation as written, nothing before or after. *)
Definition es_digito (c : ascii) : bool :=
  match valor_digito c with Some _ => true | None => false end.

Fixpoint coincide (patron s : string) : bool :=
  match patron, s with
  | EmptyString, EmptyString => true
  | String p patron', String c s' =>
      (if Ascii.eqb p "-"%char || Ascii.eqb p "T"%char || Ascii.eqb p ":"%char
       then Ascii.eqb p c else es_digito c) && coincide patron' s'
  | _, _ => false
  end.

Definition formato_minuto (s : string) : bool := coincide "YYYY-MM-DDTHH:MM" s.

(** [t] with its seconds dropped, and its sixteen characters in the layout
    above. *)
Definition al_minuto (t : datetime) : datetime :=
  mk_datetime (year t) (month t) (day t) (hour t) (minute t) 0.

Definition minuto_en_digitos (t : datetime) : string :=
  String (digito (year t / 1000)) (String (digito (year t / 100))
  (String (digito (year t / 10)) (String (digito (year t))
  (String "-" (String (digito (month t / 10)) (String (digito (month t))
  (String "-" (String (digito (day t / 10)) (String (digito (day t))
  (String "T" (String (digito (hour t / 10)) (String (digito (hour t))
  (String ":" (String (digito (minute t / 10)) (String (digito (minute t)) ""))))))))))))))).

(** The ten characters of [%Y-%m-%d]. *)
Definition dia_en_digitos (t : datetime) : string :=
  String (digito (year t / 1000)) (String (digito (year t / 100))
  (String (digito (year t / 10)) (String (digito (year t))
  (String "-" (String (digito (month t / 10)) (String (digito (month t))
  (String "-" (String (digito (day t / 10)) (String (digito (day t)) ""))))))))).

(** [t - timedelta(days=1)], the calendar day before [t]. *)
Definition dia_anterior (t : datetime) : datetime :=
  if 1 <? day t then
    mk_datetime (year t) (month t) (day t - 1) (hour t) (minute t) (second t)
  else if 1 <? month t then
    mk_datetime (year t) (month t - 1) (dias_del_mes (year t) (month t - 1))
                (hour t) (minute t) (second t)
  else
    mk_datetime (year t - 1) 12 31 (hour t) (minute t) (second t).

End Fecha.

(** ** Values, exceptions *)

(** A scalar of the response's arrays, and a cell of the table: JSON
    [null] (Python [None], pandas' missing value), an integer, a double or
    a string. *)
Inductive celda :=
| Nulo
| Entero (z : Z)
| Real (x : float)
| Texto (s : string).

(** The nearest double of an integer, ties to even: [float(z)]. *)
Definition float_of_Z (z : Z) : float :=
  SF2Prim (binary_normalize prec emax z 0 false).

(** A cell seen as a double: a missing value is NaN. *)
Definition a_float (c : celda) : float :=
  match c with
  | Nulo => nan
  | Entero z => float_of_Z z
  | Real x => x
  | Texto _ => nan
  end.

(** The exception classes the script can meet.  [KeyboardInterrupt] derives
    from [BaseException] only; every other one derives from [Exception].
    [HTTPError], [ConnectionError], [Timeout] and [JSONDecodeError] are
    those of [requests.exceptions]. *)
Inductive excepcion :=
| HTTPError (status : Z)
| ConnectionError
| Timeout
| JSONDecodeError
| KeyError (clave : string)
| TypeError
| ValueError
| OverflowError
| OSError
| UnboundLocalError
| KeyboardInterrupt.

Definition es_HTTPError (e : excepcion) : bool :=
  match e with HTTPError _ => true | _ => false end.

Definition es_Exception (e : excepcion) : bool :=
  match e with KeyboardInterrupt => false | _ => true end.

Inductive resultado (A : Type) :=
| Normal (a : A)
| Lanza (e : excepcion).
Arguments Normal {A} a.
Arguments Lanza {A} e.

#[global] Instance resultado_ret : MRet resultado := λ A a, Normal a.
#[global] Instance resultado_bind : MBind resultado := λ A B f r,
  match r with
  | Normal a => f a
  | Lanza e => Lanza e
  end.

Fixpoint para_cada {A B : Type} (f : A → resultado B) (l : list A) : resultado (list B) :=
  match l with
  | [] => Normal []
  | a :: l' =>
      match f a with
      | Normal b =>
          match para_cada f l' with
          | Normal bs => Normal (b :: bs)
          | Lanza e => Lanza e
          end
      | Lanza e => Lanza e
      end
  end.

(** ** The table: a fragment of [pandas.DataFrame] *)

(** Columns in order, each with its label; labels may repeat. *)
Definition DataFrame : Type := list (string * list celda).

Definition etiquetas (df : DataFrame) : list string := map fst df.

Definition contiene (df : DataFrame) (k : string) : bool :=
  existsb (String.eqb k) (etiquetas df).

Definition con_etiqueta (k : string) (df : DataFrame) : DataFrame :=
  List.filter (λ kc, String.eqb (fst kc) k) df.

(** [len(df)]: the number of rows. *)
Definition len (df : DataFrame) : nat :=
  match df with
  | [] => 0%nat
  | (_, c) :: _ => length c
  end.

(** [pd.DataFrame(d)] for a dict [d] of arrays: one column per key, in the
    dict's order; arrays of unequal length are a [ValueError].  A cell keeps
    the value the response gives; the storage pandas picks for a column (an
    integer column with a missing value is held as doubles, [None] as NaN)
    is not modelled. *)
Definition pd_DataFrame (d : list (string * list celda)) : resultado DataFrame :=
  match d with
  | [] => Normal []
  | (_, c) :: resto =>
      if forallb (λ kc, Nat.eqb (length (snd kc)) (length c)) resto
      then Normal d else Lanza ValueError
  end.

Definition es_texto (c : celda) : bool :=
  match c with Texto _ => true | _ => false end.

Definition es_numero (c : celda) : bool :=
  match c with Entero _ | Real _ => true | _ => false end.

Definition desborda (c : celda) : bool :=
  match c with Entero z => is_infinity (float_of_Z z) | _ => false end.

(** [col * k] for a column and a Python float.  A column of numbers (with
    or without missing values) is multiplied cell by cell in binary64, a
    missing value giving NaN.  A column holding a string, or nothing but
    [None], is kept by pandas as Python objects and the product raises
    [TypeError]; an integer beyond the doubles raises [OverflowError].  An
    empty column gives an empty column. *)
Definition multiplicar (col : list celda) (k : float) : resultado (list celda) :=
  match col with
  | [] => Normal []
  | _ :: _ =>
      if existsb es_texto col || negb (existsb es_numero col) then Lanza TypeError
      else if existsb desborda col then Lanza OverflowError
      else Normal (map (λ c, Real (a_float c * k)%float) col)
  end.

(** The product, in place, for every column labelled [k]. *)
Fixpoint multiplicar_columna (k : string) (x : float) (df : DataFrame) : resultado DataFrame :=
  match df with
  | [] => Normal []
  | (l, c) :: df' =>
      c' ← (if String.eqb l k then multiplicar c x else Normal c);
      df'' ← multiplicar_columna k x df';
      Normal ((l, c') :: df'')
  end.

(** [df[k] = df[k] * x]: [KeyError] when no column is labelled [k]. *)
Definition setitem_por (k : string) (x : float) (df : DataFrame) : resultado DataFrame :=
  if contiene df k then multiplicar_columna k x df else Lanza (KeyError k).

Fixpoint buscar {A : Type} (k : string) (l : list (string * A)) : option A :=
  match l with
  | [] => None
  | (k', v) :: l' => if String.eqb k' k then Some v else buscar k l'
  end.

(** [df.rename(columns=m)]: a label that is a key of [m] is replaced, any
    other is kept. *)
Definition rename (columns : list (string * string)) (df : DataFrame) : DataFrame :=
  map (λ kc, (default (fst kc) (buscar (fst kc) columns), snd kc)) df.

(** [df[nombres]] for a list of labels: for each label in turn, every
    column that carries it; a label carried by no column is a [KeyError]. *)
Definition seleccionar (nombres : list string) (df : DataFrame) : resultado DataFrame :=
  match List.find (λ n, negb (contiene df n)) nombres with
  | Some n => Lanza (KeyError n)
  | None => Normal (flat_map (λ n, con_etiqueta n df) nombres)
  end.

(** The nanosecond [Timestamp] covers 1677-09-21 00:12:43.145 to
    2262-04-11 23:47:16.854; in whole seconds: *)
Definition orden (t : Fecha.datetime) : Z :=
  Fecha.year t * 10000000000 + Fecha.month t * 100000000 + Fecha.day t * 1000000
  + Fecha.hour t * 10000 + Fecha.minute t * 100 + Fecha.second t.

Definition en_rango_Timestamp (t : Fecha.datetime) : bool :=
  Fecha.valido t && (16770921001244 <=? orden t) && (orden t <=? 22620411234716).

(** Every column labelled [k] goes through [f]; [df[k] = c] puts [c] there. *)
Definition aplicar (k : string) (f : list celda → list celda) (df : DataFrame) : DataFrame :=
  map (λ kc, if String.eqb (fst kc) k then (fst kc, f (snd kc)) else kc) df.

Definition asignar (k : string) (c : list celda) (df : DataFrame) : DataFrame :=
  aplicar k (λ _, c) df.

(** The rows of a table of [n] rows, and what [to_csv(index=False)] writes:
    the header line, then one line per row. *)
Definition fila (cols : list (list celda)) (i : nat) : list celda :=
  map (λ c, nth i c Nulo) cols.

Definition filas (df : DataFrame) : list (list celda) :=
  map (fila (map snd df)) (seq 0 (len df)).

Definition tabla_csv (df : DataFrame) : list (list celda) :=
  map Texto (etiquetas df) :: filas df.

(** [df.tail(n)] *)
Definition tail (n : nat) (df : DataFrame) : list (list celda) :=
  drop (len df - n) (filas df).

(** The cell of data row [i] under the header [columna] of a written file. *)
Fixpoint posicion (x : celda → bool) (l : list celda) : option nat :=
  match l with
  | [] => None
  | c :: l' => if x c then Some 0%nat else S <$> posicion x l'
  end.

Definition es_el_texto (s : string) (c : celda) : bool :=
  match c with Texto s' => String.eqb s s' | _ => false end.

Definition celda_de (archivo : list (list celda)) (columna : string) (i : nat) : option celda :=
  match archivo with
  | [] => None
  | encabezado :: datos =>
      j ← posicion (es_el_texto columna) encabezado;
      linea ← datos !! i;
      linea !! j
  end.

(** ** The world outside the script *)

(** A value of the query string. *)
Inductive parametro :=
| PReal (x : float)
| PTexto (s : string).

(** What [response.json()] gives for a body that is JSON: an object, with
    or without the key [hourly] (itself an object of arrays of scalars), or
    a JSON value that is not an object. *)
Inductive json_data :=
| JsonOtro
| JsonObjeto (hourly : option (list (string * list celda))).

(** [requests.Response]; [json] is [None] when the body is not JSON. *)
Record Response := mk_Response {
  status_code : Z;
  text : string;
  json : option json_data
}.

Inductive fallo_red := SinConexion | SinRespuesta.

Inductive contestacion :=
| Fallo (f : fallo_red)
| Contesta (r : Response).

(** What happens when the destination is opened for writing and the lines
    are sent to it: all goes well, the file cannot be opened, or the device
    fails after [k] lines. *)
Inductive disco :=
| Escribe
| NoAbre
| FallaTras (k : nat).

(** The clock, the server, pandas' timestamp parser and the disk.
    [to_datetime c] is [None] when the cell cannot be read as a time,
    [Some None] for [NaT], else the time. *)
Record Entorno := mk_Entorno {
  now : Fecha.datetime;
  servidor : string → list (string * parametro) → contestacion;
  to_datetime : celda → option (option Fecha.datetime);
  disco_de : string → disco
}.

(** ** State, console and the monad *)

Inductive mensaje :=
| MsgSolicitando (start_date end_date : string)
| MsgRecibidos
| MsgGuardados (n : nat) (archivo : string)
| MsgCola (ultimas : list (list celda))
| MsgErrorHTTP (e : excepcion)
| MsgRespuestaServidor (texto : string)
| MsgErrorInesperado (e : excepcion)
| MsgDescargando (inicio fin : string)
| MsgEliminado (archivo : string).

(** Files by path (a file is its lines, a line its fields), what was
    printed, and the local variable [response] of the download function
    ([None] while it is unbound). *)
Record Estado := mk_Estado {
  archivos : gmap string (list (list celda));
  consola : list mensaje;
  response : option Response
}.

Definition M (A : Type) : Type := Estado → resultado A * Estado.

#[global] Instance M_ret : MRet M := λ A a st, (Normal a, st).
#[global] Instance M_bind : MBind M := λ A B f m st,
  match m st with
  | (Normal a, st') => f a st'
  | (Lanza e, st') => (Lanza e, st')
  end.

Definition elevar {A : Type} (r : resultado A) : M A := λ st, (r, st).

Definition print (m : mensaje) : M unit := λ st,
  (Normal tt, mk_Estado (archivos st) (consola st ++ [m]) (response st)).

(** [try: cuerpo / except C1 as e: h1 / except C2 as e: h2 ...]: the first
    clause whose class the exception belongs to handles it; with no such
    clause the exception goes on to the caller. *)
Definition try_except (cuerpo : M unit)
    (clausulas : list ((excepcion → bool) * (excepcion → M unit))) : M unit := λ st,
  match cuerpo st with
  | (Normal a, st') => (Normal a, st')
  | (Lanza e, st') =>
      match List.find (λ cl, fst cl e) clausulas with
      | Some cl => snd cl e st'
      | None => (Lanza e, st')
      end
  end.

(** A call starts with its locals unbound. *)
Definition marco_nuevo : M unit := λ st,
  (Normal tt, mk_Estado (archivos st) (consola st) None).

Definition asignar_response (r : Response) : M unit := λ st,
  (Normal tt, mk_Estado (archivos st) (consola st) (Some r)).

Definition leer_response : M Response := λ st,
  match response st with
  | Some r => (Normal r, st)
  | None => (Lanza UnboundLocalError, st)
  end.

(** [requests.get(url, params=params)] *)
Definition requests_get (w : Entorno) (url : string) (params : list (string * parametro)) : M Response :=
  match servidor w url params with
  | Fallo SinConexion => elevar (Lanza ConnectionError)
  | Fallo SinRespuesta => elevar (Lanza Timeout)
  | Contesta r => mret r
  end.

(** [response.raise_for_status()]: client and server errors raise. *)
Definition raise_for_status (r : Response) : resultado unit :=
  if (400 <=? status_code r) && (status_code r <? 600)
  then Lanza (HTTPError (status_code r)) else Normal tt.

Definition response_json (r : Response) : resultado json_data :=
  match json r with
  | Some d => Normal d
  | None => Lanza JSONDecodeError
  end.

(** [data["hourly"]] *)
Definition getitem_hourly (data : json_data) : resultado (list (string * list celda)) :=
  match data with
  | JsonOtro => Lanza TypeError
  | JsonObjeto None => Lanza (KeyError "hourly")
  | JsonObjeto (Some h) => Normal h
  end.

(** [df.to_csv(path, index=False, encoding="utf-8")]: the destination is
    opened for writing, which empties it, then the lines are written. *)
Definition to_csv (w : Entorno) (df : DataFrame) (path : string) : M unit := λ st,
  match disco_de w path with
  | Escribe =>
      (Normal tt, mk_Estado (<[path := tabla_csv df]> (archivos st)) (consola st) (response st))
  | NoAbre => (Lanza OSError, st)
  | FallaTras k =>
      (Lanza OSError,
       mk_Estado (<[path := take k (tabla_csv df)]> (archivos st)) (consola st) (response st))
  end.

(** [os.path.exists] and [os.remove]; the file system holds plain files,
    and removing one that exists succeeds. *)
Definition os_path_exists (path : string) : M bool := λ st,
  (Normal (bool_decide (is_Some (archivos st !! path))), st).

Definition os_remove (path : string) : M unit := λ st,
  (Normal tt, mk_Estado (delete path (archivos st)) (consola st) (response st)).

(** ** [descargar_datos_historicos] *)

Definition api_url : string := "https://archive-api.open-meteo.com/v1/archive".

Definition variables_horarias : list string :=
  ["temperature_2m"; "relative_humidity_2m"; "dewpoint_2m"; "pressure_msl";
   "precipitation"; "wind_speed_10m"; "wind_gusts_10m"; "wind_direction_10m";
   "weathercode"].

Definition params (lat lon : float) (start_date end_date : string) : list (string * parametro) :=
  [("latitude", PReal lat);
   ("longitude", PReal lon);
   ("start_date", PTexto start_date);
   ("end_date", PTexto end_date);
   ("hourly", PTexto (String.concat "," variables_horarias));
   ("timezone", PTexto "America/Mexico_City")].

Definition columnas_rename : list (string * string) :=
  [("time", "fecha_hora");
   ("temperature_2m", "temperatura_C");
   ("relative_humidity_2m", "humedad_%");
   ("dewpoint_2m", "punto_rocio_C");
   ("pressure_msl", "presion_hPa");
   ("precipitation", "precipitacion_mm");
   ("wind_speed_10m", "viento_velocidad_kmh");
   ("wind_gusts_10m", "viento_rafaga_kmh");
   ("wind_direction_10m", "viento_direccion_°");
   ("weathercode", "codigo_clima_wmo")].

Definition columnas_finales : list string :=
  ["fecha_hora"; "temperatura_C"; "humedad_%"; "punto_rocio_C";
   "presion_hPa"; "precipitacion_mm"; "viento_velocidad_kmh";
   "viento_rafaga_kmh"; "viento_direccion_°"; "codigo_clima_wmo"].

(** [pd.to_datetime(c)] then [.dt.strftime(fmt)] on one cell: a cell that
    cannot be read, or a time outside the [Timestamp] range, raises; [NaT]
    prints as a missing value. *)
Definition fecha_a_texto (w : Entorno) (fmt : string) (c : celda) : resultado celda :=
  match to_datetime w c with
  | None => Lanza ValueError
  | Some None => Normal Nulo
  | Some (Some t) =>
      if en_rango_Timestamp t then Normal (Texto (Fecha.strftime t fmt))
      else Lanza ValueError
  end.

(** [df[k] = pd.to_datetime(df[k]).dt.strftime(fmt)].  With several
    columns labelled [k], [df[k]] is a table and [to_datetime] refuses it. *)
Definition setitem_fecha (w : Entorno) (k fmt : string) (df : DataFrame) : resultado DataFrame :=
  match con_etiqueta k df with
  | [] => Lanza (KeyError k)
  | [(_, c)] => c' ← para_cada (fecha_a_texto w fmt) c; Normal (asignar k c' df)
  | _ :: _ :: _ => Lanza ValueError
  end.

(** Steps 3 to 7 of the function, lines 55 to 84. *)
Definition transformar (w : Entorno) (hourly : list (string * list celda)) : resultado DataFrame :=
  df ← pd_DataFrame hourly;
  df ← setitem_por "wind_speed_10m" 3.6%float df;
  df ← setitem_por "wind_gusts_10m" 3.6%float df;
  df ← seleccionar columnas_finales (rename columnas_rename df);
  setitem_fecha w "fecha_hora" "%Y-%m-%dT%H:%M" df.

(** The [try] block, lines 46 to 90. *)
Definition cuerpo (w : Entorno) (lat lon : float) (start_date end_date archivo_csv : string) : M unit :=
  r ← requests_get w api_url (params lat lon start_date end_date);
  asignar_response r;;
  elevar (raise_for_status r);;
  data ← elevar (response_json r);
  print MsgRecibidos;;
  hourly ← elevar (getitem_hourly data);
  df ← elevar (transformar w hourly);
  to_csv w df archivo_csv;;
  print (MsgGuardados (len df) archivo_csv);;
  print (MsgCola (tail 3 df)).

Definition manejar_HTTPError (http_err : excepcion) : M unit :=
  print (MsgErrorHTTP http_err);;
  r ← leer_response;
  print (MsgRespuestaServidor (text r)).

Definition manejar_Exception (e : excepcion) : M unit :=
  print (MsgErrorInesperado e).

Definition descargar_datos_historicos (w : Entorno) (lat lon : float)
    (start_date end_date archivo_csv : string) : M unit :=
  marco_nuevo;;
  print (MsgSolicitando start_date end_date);;
  try_except (cuerpo w lat lon start_date end_date archivo_csv)
    [(es_HTTPError, manejar_HTTPError); (es_Exception, manejar_Exception)].

(** The stages before the write, as a value. *)
Definition etapas (w : Entorno) (lat lon : float) (start_date end_date : string) : resultado DataFrame :=
  match servidor w api_url (params lat lon start_date end_date) with
  | Fallo SinConexion => Lanza ConnectionError
  | Fallo SinRespuesta => Lanza Timeout
  | Contesta r =>
      raise_for_status r;;
      data ← response_json r;
      hourly ← getitem_hourly data;
      transformar w hourly
  end.

(** ** The main block *)

Definition LATITUD : float := 19.5047%float.
Definition LONGITUD : float := (-99.1469)%float.
Definition FECHA_INICIO : string := "2024-01-01".
Definition FECHA_FIN (w : Entorno) : string := Fecha.strftime (now w) "%Y-%m-%d".
Definition ARCHIVO_SALIDA : string := "historico_clima_2024-2025_CDMX2.csv".

Definition main (w : Entorno) : M unit :=
  print (MsgDescargando FECHA_INICIO (FECHA_FIN w));;
  existe ← os_path_exists ARCHIVO_SALIDA;
  (if existe : bool then
     os_remove ARCHIVO_SALIDA;;
     print (MsgEliminado ARCHIVO_SALIDA)
   else mret tt);;
  descargar_datos_historicos w LATITUD LONGITUD FECHA_INICIO (FECHA_FIN w) ARCHIVO_SALIDA.

(** One run of the script on a file system; the interpreter's exit status
    is 0 when the main block ends, 1 when an exception leaves it. *)
Definition ejecutar (w : Entorno) (fs : gmap string (list (list celda))) : resultado unit * Estado :=
  main w (mk_Estado fs [] None).

Definition codigo_salida (r : resultado unit) : Z :=
  match r with
  | Normal _ => 0
  | Lanza _ => 1
  end.

(** The column function of the unit conversion, metres per second to
    kilometres per hour. *)
Definition por_3_6 : list celda → list celda :=
  map (λ v, Real (a_float v * 3.6)%float).

(** ** The table of the specification *)

(** The array the response gives for a field ([[]] when it has none). *)
Definition entrada (hourly : list (string * list celda)) (k : string) : list celda :=
  default [] (buscar k hourly).

(** Section 6 of the specification: the ten output columns in order, each
    with the source field it comes from; the two wind fields times 3.6. *)
Definition tabla_del_spec (hourly : list (string * list celda)) (fechas : list celda) : DataFrame :=
  [("fecha_hora", fechas);
   ("temperatura_C", entrada hourly "temperature_2m");
   ("humedad_%", entrada hourly "relative_humidity_2m");
   ("punto_rocio_C", entrada hourly "dewpoint_2m");
   ("presion_hPa", entrada hourly "pressure_msl");
   ("precipitacion_mm", entrada hourly "precipitation");
   ("viento_velocidad_kmh", map (λ c, Real (a_float c * 3.6)%float) (entrada hourly "wind_speed_10m"));
   ("viento_rafaga_kmh", map (λ c, Real (a_float c * 3.6)%float) (entrada hourly "wind_gusts_10m"));
   ("viento_direccion_°", entrada hourly "wind_direction_10m");
   ("codigo_clima_wmo", entrada hourly "weathercode")].

(** The keys of a Python dict are distinct; the API's field names are none
    of the output's column names. *)
Definition claves_api (hourly : list (string * list celda)) : Prop :=
  NoDup (map fst hourly) ∧ Forall (λ k, k ∉ columnas_finales) (map fst hourly).

(** What the [fecha_hora] column can hold. *)
Definition fecha_escrita (x : celda) : Prop :=
  x = Nulo ∨ ∃ t, en_rango_Timestamp t = true ∧ x = Texto (Fecha.strftime t "%Y-%m-%dT%H:%M").

(** ** The console of a run *)

(** The classes the transformation raises. *)
Definition de_la_transformacion (e : excepcion) : bool :=
  match e with
  | ValueError | KeyError _ | TypeError | OverflowError => true
  | _ => false
  end.

(** What the function prints after its first line, outcome by outcome. *)
Definition informe (w : Entorno) (lat lon : float) (sd ed path : string) : list mensaje :=
  match servidor w api_url (params lat lon sd ed) with
  | Fallo SinConexion => [MsgErrorInesperado ConnectionError]
  | Fallo SinRespuesta => [MsgErrorInesperado Timeout]
  | Contesta r =>
      match raise_for_status r with
      | Lanza e => [MsgErrorHTTP e; MsgRespuestaServidor (text r)]
      | Normal _ =>
          match response_json r with
          | Lanza e => [MsgErrorInesperado e]
          | Normal data =>
              MsgRecibidos ::
              match hourly ← getitem_hourly data; transformar w hourly with
              | Lanza e => [MsgErrorInesperado e]
              | Normal df =>
                  match disco_de w path with
                  | Escribe => [MsgGuardados (len df) path; MsgCola (tail 3 df)]
                  | NoAbre | FallaTras _ => [MsgErrorInesperado OSError]
                  end
              end
          end
      end
  end.

(** The lines that close a run: the summary or an error. *)
Definition es_cierre (m : mensaje) : bool :=
  match m with
  | MsgGuardados _ _ | MsgErrorHTTP _ | MsgErrorInesperado _ => true
  | _ => false
  end.

(** ** Concrete worlds, to run the model *)

(** A parser for the layout the API sends; [null] is [NaT]. *)
Definition to_datetime_iso (c : celda) : option (option Fecha.datetime) :=
  match c with
  | Nulo => Some None
  | Texto s =>
      match Fecha.strptime s "%Y-%m-%dT%H:%M" with
      | Some t => Some (Some t)
      | None => None
      end
  | _ => None
  end.

(** Two hours of data, the keys in another order than the output's. *)
Definition hourly_dos_horas : list (string * list celda) :=
  [("weathercode", [Entero 3; Entero 61]);
   ("wind_gusts_10m", [Real 10; Real 12.5]);
   ("time", [Texto "2024-01-01T00:00"; Texto "2024-01-01T01:00"]);
   ("temperature_2m", [Real 11.5; Real 10.9]);
   ("relative_humidity_2m", [Entero 45; Entero 47]);
   ("dewpoint_2m", [Real 0.1; Nulo]);
   ("pressure_msl", [Real 1021.3; Real 1021]);
   ("precipitation", [Real 0; Real 0.2]);
   ("wind_speed_10m", [Real 10; Entero 3]);
   ("wind_direction_10m", [Entero 270; Entero 181])]%float.

(** The ten fields, each with an empty array. *)
Definition hourly_vacio : list (string * list celda) :=
  map (λ k, (k, [])) ("time" :: variables_horarias).

(** Section 8's scenario: 1 and 2 January 2024, forty-eight hours with a
    wind of 10 m/s throughout. *)
Definition horas_48 : list celda :=
  flat_map (λ d, map (λ h, Texto (Fecha.strftime (Fecha.mk_datetime 2024 1 d h 0 0) "%Y-%m-%dT%H:%M"))
                     (seqZ 0 24)) [1; 2].

Definition hourly_48 : list (string * list celda) :=
  ("time", horas_48)
  :: map (λ k, (k, replicate 48 (if String.eqb k "wind_speed_10m" then Real 10 else Entero 1)))
         variables_horarias.

Definition reloj_ej : Fecha.datetime := Fecha.mk_datetime 2025 3 10 14 30 5.

Definition mundo (r : Response) (d : disco) : Entorno :=
  mk_Entorno reloj_ej (λ _ _, Contesta r) to_datetime_iso (λ _, d).

Definition respuesta_ok (h : list (string * list celda)) : Response :=
  mk_Response 200 "{...}" (Some (JsonObjeto (Some h))).

Definition respuesta_400 : Response :=
  mk_Response 400 "{error}" None.

(** A server error whose body would otherwise be good data. *)
Definition respuesta_503 : Response :=
  mk_Response 503 "Service Unavailable" (Some (JsonObjeto (Some hourly_dos_horas))).

Definition mundo_en (t : Fecha.datetime) (r : Response) (d : disco) : Entorno :=
  mk_Entorno t (λ _ _, Contesta r) to_datetime_iso (λ _, d).

Definition archivo_viejo : list (list celda) :=
  [[Texto "fecha_hora"]; [Texto "2023-12-31T23:00"]].

(** * Properties *)

(** ** Dates: the layout of [strftime] and reading it back *)

Ltac desarmar :=
  repeat match goal with
  | H : _ && _ = true |- _ => apply andb_true_iff in H; destruct H
  | H : (_ <=? _) = true |- _ => apply Z.leb_le in H
  | H : (_ <? _) = true |- _ => apply Z.ltb_lt in H
  end.

Section Fechas.
Import Fecha.

Lemma rango_Z (P : Z → bool) (n : Z) :
  forallb P (map Z.of_nat (seq 0 (Z.to_nat n))) = true → ∀ z, 0 <= z < n → P z = true.
Proof.
  intros H z Hz. rewrite forallb_forall in H. apply H.
  apply in_map_iff. exists (Z.to_nat z). split; [lia|]. apply in_seq. lia.
Qed.

Lemma dos_digitos_forma n : 0 <= n < 100 →
  dos_digitos n = String (digito (n / 10)) (String (digito n) "").
Proof.
  intros H. apply String.eqb_eq.
  apply (rango_Z (λ n, String.eqb (dos_digitos n) (String (digito (n / 10)) (String (digito n) ""))) 100); [vm_compute; reflexivity | lia].
Qed.

Lemma cuatro_digitos_forma n : 0 <= n < 10000 →
  cuatro_digitos n = String (digito (n / 1000)) (String (digito (n / 100)) (String (digito (n / 10)) (String (digito n) ""))).
Proof.
  intros H. apply String.eqb_eq.
  apply (rango_Z (λ n, String.eqb (cuatro_digitos n) (String (digito (n / 1000)) (String (digito (n / 100)) (String (digito (n / 10)) (String (digito n) ""))))) 10000); [vm_compute; reflexivity | lia].
Qed.


Lemma digito_valor n : valor_digito (digito n) = Some (n mod 10).
Proof.
  assert (H : 0 <= n mod 10 < 10) by (apply Z.mod_pos_bound; lia).
  unfold digito.
  assert (n mod 10 = 0 ∨ n mod 10 = 1 ∨ n mod 10 = 2 ∨ n mod 10 = 3 ∨ n mod 10 = 4 ∨ n mod 10 = 5 ∨ n mod 10 = 6 ∨ n mod 10 = 7 ∨ n mod 10 = 8 ∨ n mod 10 = 9) as Hc by lia.
  repeat (destruct Hc as [Hc | Hc]; [rewrite Hc; reflexivity|]). rewrite Hc; reflexivity.
Qed.

Lemma recomponer y : 0 <= y < 10000 → 10 * (10 * (10 * (10 * 0 + (y / 1000) mod 10) + (y / 100) mod 10) + (y / 10) mod 10) + y mod 10 = y.
Proof. intros. Z.div_mod_to_equations. lia. Qed.

Lemma dias_del_mes_cota y m : dias_del_mes y m <= 31.
Proof. unfold dias_del_mes. repeat case_match; lia. Qed.

Lemma valido_cotas t : valido t = true →
  1 <= year t <= 9999 ∧ 1 <= month t <= 12 ∧ 1 <= day t <= 31 ∧
  0 <= hour t < 24 ∧ 0 <= minute t < 60 ∧ 0 <= second t < 60.
Proof.
  unfold valido. intros H. desarmar.
  pose proof (dias_del_mes_cota (year t) (month t)). lia.
Qed.

Lemma valido_al_minuto t : valido t = true → valido (al_minuto t) = true.
Proof.
  unfold valido, al_minuto. cbn. intros H. desarmar.
  repeat (apply andb_true_iff; split);
    try (apply Z.leb_le; lia); try (apply Z.ltb_lt; lia); reflexivity.
Qed.

(** The sixteen characters of a formatted time. *)
Lemma strftime_minuto t : valido t = true →
  strftime t "%Y-%m-%dT%H:%M" = minuto_en_digitos t.
Proof.
  intros H. apply valido_cotas in H.
  cbn -[cuatro_digitos dos_digitos].
  rewrite cuatro_digitos_forma, !dos_digitos_forma by lia. reflexivity.
Qed.

Lemma es_digito_digito n : es_digito (digito n) = true.
Proof. unfold es_digito. by rewrite digito_valor. Qed.

Lemma formato_strftime t : valido t = true →
  formato_minuto (strftime t "%Y-%m-%dT%H:%M") = true.
Proof.
  intros H. rewrite strftime_minuto by done.
  unfold formato_minuto, minuto_en_digitos. cbn -[es_digito digito].
  by rewrite !es_digito_digito.
Qed.

Lemma leer_dos a b acc s :
  leer_digitos 2 acc (String (digito a) (String (digito b) s))
  = Some (10 * (10 * acc + a mod 10) + b mod 10, s).
Proof. unfold leer_digitos. by rewrite !digito_valor. Qed.

Lemma leer_cuatro a b c d acc s :
  leer_digitos 4 acc (String (digito a) (String (digito b) (String (digito c) (String (digito d) s))))
  = Some (10 * (10 * (10 * (10 * acc + a mod 10) + b mod 10) + c mod 10) + d mod 10, s).
Proof. unfold leer_digitos. by rewrite !digito_valor. Qed.

Lemma recomponer2 m : 0 <= m < 100 → 10 * (10 * 0 + (m / 10) mod 10) + m mod 10 = m.
Proof. intros. Z.div_mod_to_equations. lia. Qed.

Ltac leer lema :=
  cbn -[leer_digitos Z.mul Z.add Z.div Z.modulo valido digito]; rewrite lema.

(** Reading a formatted time with the same format gives the time back, to
    the minute. *)
Lemma strptime_strftime t : valido t = true →
  strptime (strftime t "%Y-%m-%dT%H:%M") "%Y-%m-%dT%H:%M" = Some (al_minuto t).
Proof.
  intros H. rewrite strftime_minuto by done.
  pose proof (valido_cotas t H) as Hc.
  unfold strptime, minuto_en_digitos.
  leer leer_cuatro. leer leer_dos. leer leer_dos. leer leer_dos. leer leer_dos.
  cbn -[leer_digitos Z.mul Z.add Z.div Z.modulo valido digito].
  rewrite recomponer, !recomponer2 by lia.
  fold (al_minuto t). by rewrite valido_al_minuto.
Qed.

(** Formatting, reading and formatting again changes nothing. *)
Lemma ida_y_vuelta t : valido t = true →
  ∃ t', strptime (strftime t "%Y-%m-%dT%H:%M") "%Y-%m-%dT%H:%M" = Some t' ∧
        strftime t' "%Y-%m-%dT%H:%M" = strftime t "%Y-%m-%dT%H:%M".
Proof.
  intros H. exists (al_minuto t). split; [by apply strptime_strftime|].
  by rewrite !strftime_minuto by (by try apply valido_al_minuto).
Qed.

End Fechas.

(** ** The transformation, stage by stage *)

Lemma pd_DataFrame_ok d df :
  pd_DataFrame d = Normal df →
  df = d ∧ Forall (λ kc, length (snd kc) = len d) d.
Proof.
  unfold pd_DataFrame. destruct d as [|[k c] resto]; [by inversion 1|].
  destruct (forallb _ resto) eqn:E; [|done]. intros [= <-]. split; [done|].
  constructor; [done|]. cbn. rewrite forallb_forall in E.
  apply List.Forall_forall. intros kc Hin. apply Nat.eqb_eq. by apply E.
Qed.

Lemma multiplicar_ok c x c' :
  multiplicar c x = Normal c' → c' = map (λ v, Real (a_float v * x)%float) c.
Proof.
  unfold multiplicar. destruct c as [|v c]; [by intros [= <-]|].
  repeat case_match; by intros [= <-].
Qed.

Lemma multiplicar_columna_ok k x df df' :
  multiplicar_columna k x df = Normal df' →
  df' = aplicar k (map (λ v, Real (a_float v * x)%float)) df.
Proof.
  revert df'. induction df as [|[l c] df IH]; intros df'; cbn; [by intros [= <-]|].
  destruct (String.eqb l k) eqn:El.
  - destruct (multiplicar c x) as [c'|] eqn:Ec; cbn; [|done].
    destruct (multiplicar_columna k x df) as [df''|]; cbn; [|done].
    intros [= <-]. apply multiplicar_ok in Ec as ->. by rewrite (IH df'').
  - cbn. destruct (multiplicar_columna k x df) as [df''|]; cbn; [|done].
    intros [= <-]. by rewrite (IH df'').
Qed.

Lemma setitem_por_ok k x df df' :
  setitem_por k x df = Normal df' →
  df' = aplicar k (map (λ v, Real (a_float v * x)%float)) df.
Proof.
  unfold setitem_por. destruct (contiene df k); [|done]. apply multiplicar_columna_ok.
Qed.

Lemma seleccionar_ok ns df df' :
  seleccionar ns df = Normal df' →
  df' = flat_map (λ n, con_etiqueta n df) ns ∧ Forall (λ n, contiene df n = true) ns.
Proof.
  unfold seleccionar. destruct (List.find _ ns) eqn:E; [done|]. intros [= <-]. split; [done|].
  apply List.Forall_forall. intros n Hn.
  pose proof (find_none _ _ E n Hn) as H. cbn in H. by destruct (contiene df n).
Qed.

Lemma con_etiqueta_aplicar n k f df :
  con_etiqueta n (aplicar k f df) = aplicar k f (con_etiqueta n df).
Proof.
  unfold con_etiqueta, aplicar.
  induction df as [|[l c] df IH]; [done|]. cbn.
  destruct (String.eqb l k) eqn:E; cbn; destruct (String.eqb l n) eqn:E'; cbn; rewrite ?E; by rewrite IH.
Qed.

Lemma con_etiqueta_NoDup k (d : DataFrame) :
  NoDup (map fst d) →
  con_etiqueta k d = match buscar k d with Some c => [(k, c)] | None => [] end.
Proof.
  unfold con_etiqueta.
  induction d as [|[l c] d IH]; [done|]. cbn. intros Hnd. apply NoDup_cons in Hnd as [Hl Hnd].
  destruct (String.eqb_spec l k) as [->|Hne].
  - rewrite IH by done.
    destruct (buscar k d) as [c'|] eqn:Eb; [|done]. exfalso. apply Hl.
    clear -Eb. induction d as [|[l' c''] d IH]; [done|]. cbn in *.
    destruct (String.eqb_spec l' k) as [->|]; [left|right; by apply IH].
  - by apply IH.
Qed.

Lemma contiene_con_etiqueta df n : contiene df n = true → con_etiqueta n df ≠ [].
Proof.
  unfold contiene, etiquetas, con_etiqueta. induction df as [|[l c] df IH]; [done|]. cbn.
  rewrite (String.eqb_sym n l). destruct (String.eqb l n); [done|]. cbn. apply IH.
Qed.

Lemma nuevo_nombre_eqb l src dst :
  In (src, dst) columnas_rename → l ∉ columnas_finales →
  String.eqb (default l (buscar l columnas_rename)) dst = String.eqb l src.
Proof.
  intros Hin Hl.
  assert (Forall (λ n, l ≠ n) columnas_finales) as Hf.
  { apply List.Forall_forall. intros n Hn ->. apply Hl. by apply list_elem_of_In. }
  unfold columnas_finales in Hf. repeat (apply Forall_cons in Hf as [? Hf]).
  unfold columnas_rename in *. cbn in Hin.
  cbn [buscar].
  repeat (destruct Hin as [[= <- <-]|Hin]); try done.
  all: repeat (match goal with Hx : ?x ∉ _ |- context [String.eqb ?a ?x] => destruct (String.eqb_spec a x) as [<-|?] end; [by vm_compute|]).
  all: cbn [default]; symmetry; rewrite !(proj2 (String.eqb_neq _ _)); congruence.
Qed.

Lemma etiquetas_aplicar k f df : map fst (aplicar k f df) = map fst df.
Proof.
  unfold aplicar. induction df as [|[l c] df IH]; [done|]. cbn.
  destruct (String.eqb l k); cbn; by rewrite IH.
Qed.

Lemma con_etiqueta_rename src dst (df : DataFrame) :
  In (src, dst) columnas_rename →
  Forall (λ k, k ∉ columnas_finales) (map fst df) →
  con_etiqueta dst (rename columnas_rename df)
  = map (λ kc, (dst, snd kc)) (con_etiqueta src df).
Proof.
  intros Hin. unfold con_etiqueta, rename.
  induction df as [|[l c] df IH]; [done|]. cbn [map fst snd List.filter].
  intros Hf. apply Forall_cons in Hf as [Hl Hf].
  rewrite (nuevo_nombre_eqb l src dst) by done.
  destruct (String.eqb l src) eqn:E; [|by apply IH].
  cbn [map snd]. rewrite IH by done. f_equal. f_equal.
  apply String.eqb_eq. by rewrite (nuevo_nombre_eqb l src dst).
Qed.

Lemma buscar_longitud (d : DataFrame) n k c :
  Forall (λ kc, length (snd kc) = n) d → buscar k d = Some c → length c = n.
Proof.
  induction d as [|[l c'] d IH]; [done|]. cbn. intros Hf. apply Forall_cons in Hf as [Hl Hf].
  destruct (String.eqb l k); [by intros [= <-]|by apply IH].
Qed.

Lemma columna_final src dst hourly :
  claves_api hourly → In (src, dst) columnas_rename →
  contiene (rename columnas_rename
              (aplicar "wind_gusts_10m" por_3_6 (aplicar "wind_speed_10m" por_3_6 hourly))) dst = true →
  ∃ c, buscar src hourly = Some c ∧
       con_etiqueta dst (rename columnas_rename
              (aplicar "wind_gusts_10m" por_3_6 (aplicar "wind_speed_10m" por_3_6 hourly)))
       = map (λ kc, (dst, snd kc))
           (aplicar "wind_gusts_10m" por_3_6 (aplicar "wind_speed_10m" por_3_6 [(src, c)])).
Proof.
  intros [Hnd Hf] Hin Hc. apply contiene_con_etiqueta in Hc.
  rewrite (con_etiqueta_rename src dst) in Hc |- * by (by rewrite ?etiquetas_aplicar).
  rewrite !con_etiqueta_aplicar, con_etiqueta_NoDup in Hc |- * by done.
  destruct (buscar src hourly) as [c|]; [by exists c|done].
Qed.

Lemma para_cada_longitud {A B} (f : A → resultado B) l l' :
  para_cada f l = Normal l' → length l' = length l.
Proof.
  revert l'. induction l as [|a l IH]; intros l'; cbn; [by intros [= <-]|].
  destruct (f a); [|done]. destruct (para_cada f l) as [bs|]; [|done].
  intros [= <-]. cbn. by rewrite (IH bs).
Qed.

Ltac columna H i src dst :=
  let c := fresh "c" in let B := fresh "B" in let E := fresh "E" in
  destruct (columna_final src dst _ H) as (c & B & E);
    [apply (nth_error_In _ i); reflexivity | assumption |];
  rewrite E; clear E.

Lemma seleccion_forma hourly :
  claves_api hourly →
  Forall (λ n, contiene (rename columnas_rename
      (aplicar "wind_gusts_10m" por_3_6 (aplicar "wind_speed_10m" por_3_6 hourly))) n = true)
    columnas_finales →
  flat_map (λ n, con_etiqueta n (rename columnas_rename
      (aplicar "wind_gusts_10m" por_3_6 (aplicar "wind_speed_10m" por_3_6 hourly))))
    columnas_finales
  = tabla_del_spec hourly (entrada hourly "time") ∧
  Forall (λ k, is_Some (buscar k hourly)) ("time" :: variables_horarias).
Proof.
  intros Hapi Hc.
  unfold columnas_finales in Hc. repeat (apply Forall_cons in Hc as [? Hc]).
  unfold columnas_finales. cbn [flat_map].
  columna Hapi 0%nat "time" "fecha_hora".
  columna Hapi 1%nat "temperature_2m" "temperatura_C".
  columna Hapi 2%nat "relative_humidity_2m" "humedad_%".
  columna Hapi 3%nat "dewpoint_2m" "punto_rocio_C".
  columna Hapi 4%nat "pressure_msl" "presion_hPa".
  columna Hapi 5%nat "precipitation" "precipitacion_mm".
  columna Hapi 6%nat "wind_speed_10m" "viento_velocidad_kmh".
  columna Hapi 7%nat "wind_gusts_10m" "viento_rafaga_kmh".
  columna Hapi 8%nat "wind_direction_10m" "viento_direccion_°".
  columna Hapi 9%nat "weathercode" "codigo_clima_wmo".
  unfold tabla_del_spec, entrada, variables_horarias.
  rewrite B, B0, B1, B2, B3, B4, B5, B6, B7, B8.
  split; [reflexivity|]. repeat (apply Forall_cons; split); by eauto.
Qed.

Lemma setitem_fecha_tabla w fmt hourly t :
  setitem_fecha w "fecha_hora" fmt (tabla_del_spec hourly t)
  = c' ← para_cada (fecha_a_texto w fmt) t; Normal (tabla_del_spec hourly c').
Proof. reflexivity. Qed.

Theorem transformar_forma w hourly df :
  claves_api hourly → transformar w hourly = Normal df →
  ∃ fechas,
    para_cada (fecha_a_texto w "%Y-%m-%dT%H:%M") (entrada hourly "time") = Normal fechas ∧
    df = tabla_del_spec hourly fechas ∧
    len df = len hourly ∧
    Forall (λ kc, length (snd kc) = len hourly) df ∧
    Forall (λ k, length (entrada hourly k) = len hourly) ("time" :: variables_horarias).
Proof.
  intros Hapi. unfold transformar.
  destruct (pd_DataFrame hourly) as [df0|] eqn:E0; [|done].
  apply pd_DataFrame_ok in E0 as [-> Hlen]. cbn [mbind resultado_bind].
  destruct (setitem_por "wind_speed_10m" _ hourly) as [df1|] eqn:E1; [|done].
  apply setitem_por_ok in E1 as ->. cbn [mbind resultado_bind].
  match goal with |- context [setitem_por ?k ?x ?d] =>
    destruct (setitem_por k x d) as [df2|] eqn:E2; [|done] end.
  apply setitem_por_ok in E2 as ->. cbn [mbind resultado_bind].
  fold por_3_6.
  match goal with |- context [seleccionar ?k ?d] =>
    destruct (seleccionar k d) as [df4|] eqn:E4; [|done] end.
  apply seleccionar_ok in E4 as [-> Hc]. cbn [mbind resultado_bind].
  destruct (seleccion_forma hourly Hapi Hc) as [-> Hs].
  rewrite setitem_fecha_tabla.
  destruct (para_cada _ _) as [fechas|] eqn:Ef; [|done].
  intros [= <-]. exists fechas.
  pose proof (para_cada_longitud _ _ _ Ef) as Hl.
  assert (Forall (λ k, length (entrada hourly k) = len hourly) ("time" :: variables_horarias)) as Hk.
  { eapply Forall_impl; [exact Hs|]. intros k [c Hb]. cbn beta in Hb.
    unfold entrada. rewrite Hb. cbn. by eapply buscar_longitud. }
  split; [done|]. split; [done|].
  pose proof Hk as Hk'.
  unfold variables_horarias in Hk'. repeat (apply Forall_cons in Hk' as [? Hk']).
  cbn beta in *.
  split; [cbn; congruence|]. split; [|done].
  unfold tabla_del_spec.
  repeat (apply Forall_cons; split); try apply Forall_nil; cbn [snd]; rewrite ?length_map; try done; congruence.
Qed.

Lemma multiplicar_columna_exito k x (df : DataFrame) :
  (∀ c, In (k, c) df → ∃ c', multiplicar c x = Normal c') →
  multiplicar_columna k x df = Normal (aplicar k (map (λ v, Real (a_float v * x)%float)) df).
Proof.
  induction df as [|[l c] df IH]; [done|]. intros H. cbn.
  rewrite IH by (intros c0 H0; apply H; by right).
  destruct (String.eqb_spec l k) as [->|Hne]; [|done].
  destruct (H c) as [c' Hc']; [by left|]. rewrite Hc'. cbn.
  by apply multiplicar_ok in Hc' as ->.
Qed.

Lemma buscar_In {A} k (v : A) l : buscar k l = Some v → In (k, v) l.
Proof.
  induction l as [|[k' v'] l IH]; [done|]. cbn.
  destruct (String.eqb_spec k' k) as [->|]; [intros [= <-]; by left | right; by apply IH].
Qed.

Lemma In_buscar {A} k (v : A) l : NoDup (map fst l) → In (k, v) l → buscar k l = Some v.
Proof.
  induction l as [|[k' v'] l IH]; [done|]. cbn. intros Hnd. apply NoDup_cons in Hnd as [Hk Hnd].
  intros [[= -> ->]|Hin]; [by rewrite String.eqb_refl|].
  destruct (String.eqb_spec k' k) as [->|]; [|by apply IH].
  exfalso. apply Hk. apply list_elem_of_In. apply in_map_iff. by exists (k, v).
Qed.

Lemma contiene_In df k : contiene df k = true ↔ In k (map fst df).
Proof.
  unfold contiene, etiquetas. rewrite existsb_exists. split.
  - intros (x & Hx & E). apply String.eqb_eq in E. by subst.
  - intros H. exists k. split; [done|]. apply String.eqb_refl.
Qed.

Lemma setitem_por_exito k x (df : DataFrame) c c' :
  NoDup (map fst df) → buscar k df = Some c → multiplicar c x = Normal c' →
  setitem_por k x df = Normal (aplicar k (map (λ v, Real (a_float v * x)%float)) df).
Proof.
  intros Hnd Hb Hm. unfold setitem_por.
  assert (contiene df k = true) as ->.
  { apply contiene_In. apply in_map_iff. exists (k, c). split; [done|]. by apply buscar_In. }
  apply multiplicar_columna_exito. intros c0 H0.
  apply In_buscar in H0; [|done]. exists c'. congruence.
Qed.

Lemma buscar_aplicar_otro k k' f (df : DataFrame) :
  k ≠ k' → buscar k' (aplicar k f df) = buscar k' df.
Proof.
  intros Hne. unfold aplicar. induction df as [|[l c] df IH]; [done|]. cbn.
  destruct (String.eqb_spec l k) as [->|]; cbn.
  - destruct (String.eqb_spec k k'); [done|apply IH].
  - destruct (String.eqb_spec l k'); [done|apply IH].
Qed.

Lemma contiene_rename src dst (df : DataFrame) :
  In (src, dst) columnas_rename → In src (map fst df) →
  contiene (rename columnas_rename df) dst = true.
Proof.
  intros Hin Hsrc. apply contiene_In. unfold rename. rewrite map_map. cbn [fst].
  apply in_map_iff in Hsrc as ([l c] & <- & Hlc).
  apply in_map_iff. exists (l, c). split; [|done]. cbn [fst].
  unfold columnas_rename in Hin. cbn in Hin.
  repeat (destruct Hin as [[= <- <-]|Hin]; [reflexivity|]). done.
Qed.

Lemma seleccionar_exito ns df :
  Forall (λ n, contiene df n = true) ns →
  seleccionar ns df = Normal (flat_map (λ n, con_etiqueta n df) ns).
Proof.
  intros H. unfold seleccionar.
  destruct (List.find _ ns) as [n|] eqn:E; [|done].
  apply find_some in E as [Hin Hn]. rewrite List.Forall_forall in H.
  rewrite (H n Hin) in Hn. done.
Qed.

(** Every stage succeeds on a well-formed response. *)
Theorem transformar_exito w hourly ws gs fechas :
  claves_api hourly →
  Forall (λ k, In k (map fst hourly)) ("time" :: variables_horarias) →
  Forall (λ kc, length (snd kc) = len hourly) hourly →
  multiplicar (entrada hourly "wind_speed_10m") 3.6 = Normal ws →
  multiplicar (entrada hourly "wind_gusts_10m") 3.6 = Normal gs →
  para_cada (fecha_a_texto w "%Y-%m-%dT%H:%M") (entrada hourly "time") = Normal fechas →
  transformar w hourly = Normal (tabla_del_spec hourly fechas).
Proof.
  intros Hapi Hk Hlen Hws Hgs Hf.
  assert (∀ k, In k (map fst hourly) → buscar k hourly = Some (entrada hourly k)) as Hb.
  { intros k Hin. apply in_map_iff in Hin as ([l c] & <- & Hin). cbn.
    apply In_buscar in Hin; [|by destruct Hapi]. unfold entrada. by rewrite Hin. }
  pose proof Hk as Hk'. unfold variables_horarias in Hk'.
  repeat (apply Forall_cons in Hk' as [? Hk']).
  unfold transformar.
  assert (pd_DataFrame hourly = Normal hourly) as ->.
  { unfold pd_DataFrame. destruct hourly as [|[k c] resto]; [done|].
    apply Forall_cons in Hlen as [_ Hlen]. cbn in Hlen.
    assert (forallb (λ kc, Nat.eqb (length (snd kc)) (length c)) resto = true) as ->; [|done].
    apply forallb_forall. rewrite List.Forall_forall in Hlen.
    intros kc Hin. apply Nat.eqb_eq. by apply Hlen. }
  cbn [mbind resultado_bind].
  rewrite (setitem_por_exito _ _ _ (entrada hourly "wind_speed_10m") ws);
    [|by destruct Hapi|by apply Hb|done].
  cbn [mbind resultado_bind].
  rewrite (setitem_por_exito _ _ _ (entrada hourly "wind_gusts_10m") gs);
    [|rewrite etiquetas_aplicar; by destruct Hapi|rewrite buscar_aplicar_otro by done; by apply Hb|done].
  cbn [mbind resultado_bind]. fold por_3_6.
  assert (Forall (λ n, contiene (rename columnas_rename
      (aplicar "wind_gusts_10m" por_3_6 (aplicar "wind_speed_10m" por_3_6 hourly))) n = true)
    columnas_finales) as Hc.
  { unfold columnas_finales.
    repeat (apply Forall_cons; split); try done.
    all: eapply contiene_rename;
      [unfold columnas_rename; cbn [In]; repeat ((left; reflexivity) || right)
      |rewrite !etiquetas_aplicar; eassumption]. }
  rewrite seleccionar_exito by done. cbn [mbind resultado_bind].
  destruct (seleccion_forma hourly Hapi Hc) as [-> _].
  rewrite setitem_fecha_tabla, Hf. reflexivity.
Qed.

(** ** Reading a written file *)

Lemma lookup_map {A B} (f : A → B) (l : list A) (i : nat) :
  map f l !! i = f <$> l !! i.
Proof. revert i. induction l as [|a l IH]; intros [|i]; cbn; by try done. Qed.

Lemma posicion_buscar col (df : DataFrame) j :
  posicion (es_el_texto col) (map Texto (etiquetas df)) = Some j →
  ∃ c, buscar col df = Some c ∧ map snd df !! j = Some c.
Proof.
  unfold etiquetas. revert j. induction df as [|[l c] df IH]; intros j; cbn; [done|].
  rewrite (String.eqb_sym col l). destruct (String.eqb l col).
  - intros [= <-]. by exists c.
  - destruct (posicion _ _) as [j'|] eqn:E; cbn; [|done].
    intros [= <-]. destruct (IH j' eq_refl) as (c' & ? & ?). by exists c'.
Qed.


Lemma filas_lookup df i :
  filas df !! i = if decide (i < len df)%nat then Some (fila (map snd df) i) else None.
Proof.
  unfold filas. rewrite lookup_map. case_decide.
  - by rewrite lookup_seq_lt.
  - rewrite lookup_seq_ge; [done|lia].
Qed.

Lemma fila_lookup cols i j :
  fila cols i !! j = (λ c, nth i c Nulo) <$> cols !! j.
Proof. unfold fila. apply lookup_map. Qed.

(** A cell read from a written file, whole or cut short, is the cell of
    that row in the first column that carries the header. *)
Lemma celda_de_tabla k df col i x :
  celda_de (take k (tabla_csv df)) col i = Some x →
  ∃ c, buscar col df = Some c ∧ x = nth i c Nulo ∧ (i < len df)%nat.
Proof.
  unfold tabla_csv. destruct k as [|k]; [done|]. cbn [take celda_de].
  destruct (posicion _ _) as [j|] eqn:Ej; [|done]. cbn.
  destruct (take k (filas df) !! i) as [linea|] eqn:El; [|done]. cbn.
  apply lookup_take_Some in El as [El _]. rewrite filas_lookup in El.
  case_decide; [|done]. injection El as <-.
  rewrite fila_lookup. intros Hx.
  apply posicion_buscar in Ej as (c & Hb & Hj). rewrite Hj in Hx. cbn in Hx.
  injection Hx as <-. by exists c.
Qed.


Lemma nth_lookup (c : list celda) i : (i < length c)%nat → c !! i = Some (nth i c Nulo).
Proof. revert i. induction c as [|a c IH]; intros [|i]; cbn; try lia; [done|]. intros. apply IH. lia. Qed.

(** ** The function as a whole *)

Lemma para_cada_lanza {A B} (P : excepcion → Prop) (f : A → resultado B) l e :
  (∀ a e', f a = Lanza e' → P e') → para_cada f l = Lanza e → P e.
Proof.
  intros Hf. induction l as [|a l IH]; cbn; [done|].
  destruct (f a) eqn:Ea; [|intros [= <-]; by eapply Hf].
  destruct (para_cada f l); [done|]. intros [= <-]. by apply IH.
Qed.

Lemma multiplicar_lanza c x e : multiplicar c x = Lanza e → es_Exception e = true.
Proof. unfold multiplicar. repeat case_match; try done; by intros [= <-]. Qed.

Lemma multiplicar_columna_lanza k x df e :
  multiplicar_columna k x df = Lanza e → es_Exception e = true.
Proof.
  induction df as [|[l c] df IH]; cbn; [done|].
  destruct (String.eqb l k).
  - destruct (multiplicar c x) eqn:Em; cbn; [|intros [= <-]; by eapply multiplicar_lanza].
    destruct (multiplicar_columna k x df); cbn; [done|]. intros [= <-]. by apply IH.
  - cbn. destruct (multiplicar_columna k x df); cbn; [done|]. intros [= <-]. by apply IH.
Qed.

Lemma setitem_por_lanza k x df e : setitem_por k x df = Lanza e → es_Exception e = true.
Proof.
  unfold setitem_por. case_match; [apply multiplicar_columna_lanza|by intros [= <-]].
Qed.

Lemma setitem_fecha_lanza w k fmt df e :
  setitem_fecha w k fmt df = Lanza e → es_Exception e = true.
Proof.
  unfold setitem_fecha. destruct (con_etiqueta k df) as [|[l c] [|]]; try by intros [= <-].
  destruct (para_cada _ c) eqn:Ep; cbn; [done|]. intros [= <-].
  eapply (para_cada_lanza (λ e, es_Exception e = true)); [|exact Ep].
  intros a e'. unfold fecha_a_texto. repeat case_match; try done; by intros [= <-].
Qed.

(** Whatever the transformation raises derives from [Exception]. *)
Lemma transformar_lanza w hourly e :
  transformar w hourly = Lanza e → es_Exception e = true.
Proof.
  unfold transformar.
  destruct (pd_DataFrame hourly) as [df0|e0] eqn:E0; cbn [mbind resultado_bind].
  2:{ intros [= <-]. unfold pd_DataFrame in E0. repeat case_match; try done. by injection E0 as <-. }
  destruct (setitem_por _ _ df0) as [df1|e1] eqn:E1; cbn [mbind resultado_bind].
  2:{ intros [= <-]. by eapply setitem_por_lanza. }
  destruct (setitem_por _ _ df1) as [df2|e2] eqn:E2; cbn [mbind resultado_bind].
  2:{ intros [= <-]. by eapply setitem_por_lanza. }
  destruct (seleccionar _ _) as [df4|e4] eqn:E4; cbn [mbind resultado_bind].
  2:{ intros [= <-]. unfold seleccionar in E4. case_match; [|done]. by injection E4 as <-. }
  apply setitem_fecha_lanza.
Qed.

Ltac correr :=
  unfold descargar_datos_historicos, cuerpo, try_except, requests_get, marco_nuevo,
    manejar_HTTPError, manejar_Exception, leer_response, asignar_response, print, elevar, to_csv,
    raise_for_status, response_json, getitem_hourly,
    mbind, mret, M_bind, M_ret; cbn [fst snd archivos consola response List.find].

Ltac por_etapas w r hourly df e Et :=
  correr;
  destruct (servidor w _ _) as [[|]|r]; cbn;
  [ | | destruct ((400 <=? status_code r) && (status_code r <? 600)) eqn:?; cbn;
        [ | destruct (json r) as [[|[hourly|]]|] eqn:?; cbn;
            [ | destruct (transformar w hourly) as [df|e] eqn:Et; cbn;
                [ destruct (disco_de w _) eqn:?; cbn
                | rewrite (transformar_lanza _ _ _ Et); destruct (es_HTTPError e) eqn:?; cbn ]
              | | ] ] ].

Theorem no_propaga w lat lon start_date end_date archivo_csv st :
  fst (descargar_datos_historicos w lat lon start_date end_date archivo_csv st) = Normal tt.
Proof. por_etapas w r hourly df e Et; done. Qed.

Lemma descargar_archivos w lat lon start_date end_date archivo_csv st :
  archivos (snd (descargar_datos_historicos w lat lon start_date end_date archivo_csv st))
  = match etapas w lat lon start_date end_date with
    | Lanza _ => archivos st
    | Normal df =>
        match disco_de w archivo_csv with
        | Escribe => <[archivo_csv := tabla_csv df]> (archivos st)
        | NoAbre => archivos st
        | FallaTras k => <[archivo_csv := take k (tabla_csv df)]> (archivos st)
        end
    end.
Proof.
  unfold etapas. por_etapas w r hourly df e Et; try done.
  all: rewrite Et; done.
Qed.

(** ** The run of the script *)

Lemma main_es_descargar w fs :
  ejecutar w fs
  = descargar_datos_historicos w LATITUD LONGITUD FECHA_INICIO (FECHA_FIN w) ARCHIVO_SALIDA
      (mk_Estado (delete ARCHIVO_SALIDA fs)
         (if bool_decide (is_Some (fs !! ARCHIVO_SALIDA))
          then [MsgDescargando FECHA_INICIO (FECHA_FIN w); MsgEliminado ARCHIVO_SALIDA]
          else [MsgDescargando FECHA_INICIO (FECHA_FIN w)])
         None).
Proof.
  unfold ejecutar, main, os_path_exists, os_remove, print, mbind, mret, M_bind, M_ret.
  cbn [archivos consola response].
  case_bool_decide as H; cbn [archivos consola response app]; [done|].
  rewrite delete_id; [done|]. by apply eq_None_not_Some.
Qed.

Lemma ejecutar_archivos w fs :
  archivos (snd (ejecutar w fs))
  = match etapas w LATITUD LONGITUD FECHA_INICIO (FECHA_FIN w) with
    | Lanza _ => delete ARCHIVO_SALIDA fs
    | Normal df =>
        match disco_de w ARCHIVO_SALIDA with
        | Escribe => <[ARCHIVO_SALIDA := tabla_csv df]> (delete ARCHIVO_SALIDA fs)
        | NoAbre => delete ARCHIVO_SALIDA fs
        | FallaTras k => <[ARCHIVO_SALIDA := take k (tabla_csv df)]> (delete ARCHIVO_SALIDA fs)
        end
    end.
Proof. rewrite main_es_descargar. apply descargar_archivos. Qed.

Lemma etapas_normal w lat lon sd ed df :
  etapas w lat lon sd ed = Normal df →
  ∃ r hourly, servidor w api_url (params lat lon sd ed) = Contesta r ∧
              raise_for_status r = Normal tt ∧
              json r = Some (JsonObjeto (Some hourly)) ∧
              transformar w hourly = Normal df.
Proof.
  unfold etapas. destruct (servidor w _ _) as [[|]|r]; try done.
  destruct (raise_for_status r) as [[]|] eqn:Er; cbn; [|done].
  unfold response_json. destruct (json r) as [[|[hourly|]]|] eqn:Ej; cbn; try done.
  intros H. by exists r, hourly.
Qed.

(** A file found at the destination after a run was written by that run:
    it is the table of the response, whole or cut short. *)
Lemma archivo_escrito w fs archivo :
  archivos (snd (ejecutar w fs)) !! ARCHIVO_SALIDA = Some archivo →
  ∃ r hourly df k,
    servidor w api_url (params LATITUD LONGITUD FECHA_INICIO (FECHA_FIN w)) = Contesta r ∧
    json r = Some (JsonObjeto (Some hourly)) ∧
    transformar w hourly = Normal df ∧
    archivo = take k (tabla_csv df) ∧
    (disco_de w ARCHIVO_SALIDA = Escribe → archivo = tabla_csv df).
Proof.
  rewrite ejecutar_archivos.
  destruct (etapas _ _ _ _ _) as [df|] eqn:Ee; [|by rewrite lookup_delete_eq].
  apply etapas_normal in Ee as (r & hourly & Hs & _ & Hj & Ht).
  destruct (disco_de w ARCHIVO_SALIDA) as [| |k] eqn:Ed.
  - rewrite lookup_insert_eq. intros [= <-].
    exists r, hourly, df, (length (tabla_csv df)). by rewrite firstn_all.
  - by rewrite lookup_delete_eq.
  - rewrite lookup_insert_eq. intros [= <-]. by exists r, hourly, df, k.
Qed.

Lemma columna_escrita (df : DataFrame) k col c i x :
  buscar col df = Some c → length c = len df →
  celda_de (take k (tabla_csv df)) col i = Some x → c !! i = Some x.
Proof.
  intros Hb Hl Hc. apply celda_de_tabla in Hc as (c' & Hb' & -> & Hi).
  assert (c' = c) as -> by congruence. apply nth_lookup. lia.
Qed.


(** What a run leaves at the destination, for a response in the API's
    shape: the table of section 6, whole or cut short. *)
Lemma archivo_del_spec w fs r hourly archivo :
  servidor w api_url (params LATITUD LONGITUD FECHA_INICIO (FECHA_FIN w)) = Contesta r →
  json r = Some (JsonObjeto (Some hourly)) →
  claves_api hourly →
  archivos (snd (ejecutar w fs)) !! ARCHIVO_SALIDA = Some archivo →
  ∃ fechas k,
    archivo = take k (tabla_csv (tabla_del_spec hourly fechas)) ∧
    (disco_de w ARCHIVO_SALIDA = Escribe → archivo = tabla_csv (tabla_del_spec hourly fechas)) ∧
    len (tabla_del_spec hourly fechas) = len hourly ∧
    Forall (λ k, length (entrada hourly k) = len hourly) ("time" :: variables_horarias).
Proof.
  intros Hs Hj Hapi Ha.
  apply archivo_escrito in Ha as (r' & hourly' & df & k & Hs' & Hj' & Ht & -> & He).
  assert (r' = r) as -> by congruence. assert (hourly' = hourly) as -> by congruence.
  apply transformar_forma in Ht as (fechas & _ & -> & Hlen & _ & Hk); [|done].
  by exists fechas, k.
Qed.



(** C4: the first line of the file a run leaves names the ten columns in
    the fixed order, whatever the order of the keys of [hourly]. *)
Theorem columnas_en_orden w fs r hourly archivo encabezado :
  servidor w api_url (params LATITUD LONGITUD FECHA_INICIO (FECHA_FIN w)) = Contesta r →
  json r = Some (JsonObjeto (Some hourly)) →
  claves_api hourly →
  archivos (snd (ejecutar w fs)) !! ARCHIVO_SALIDA = Some archivo →
  archivo !! 0%nat = Some encabezado →
  encabezado = [Texto "fecha_hora"; Texto "temperatura_C"; Texto "humedad_%";
                Texto "punto_rocio_C"; Texto "presion_hPa"; Texto "precipitacion_mm";
                Texto "viento_velocidad_kmh"; Texto "viento_rafaga_kmh";
                Texto "viento_direccion_°"; Texto "codigo_clima_wmo"].
Proof.
  intros Hs Hj Hapi Ha H0.
  destruct (archivo_del_spec w fs r hourly archivo Hs Hj Hapi Ha) as (fechas & k & -> & _).
  destruct k as [|k]; [done|]. cbn in H0. by injection H0 as <-.
Qed.


(** ** Timestamps of the output *)

Lemma para_cada_Forall {A B} (P : B → Prop) (f : A → resultado B) l l' :
  (∀ a b, f a = Normal b → P b) → para_cada f l = Normal l' → Forall P l'.
Proof.
  intros Hf. revert l'. induction l as [|a l IH]; intros l'; cbn; [by intros [= <-]|].
  destruct (f a) as [b|] eqn:Ea; [|done]. destruct (para_cada f l) as [bs|]; [|done].
  intros [= <-]. constructor; [by eapply Hf|by apply IH].
Qed.

Lemma buscar_asignar k c (df : DataFrame) c' :
  buscar k (asignar k c df) = Some c' → c' = c.
Proof.
  unfold asignar, aplicar. induction df as [|[l c0] df IH]; cbn; [done|].
  destruct (String.eqb l k) eqn:E; cbn; rewrite E; [by intros [= <-]|done].
Qed.

Lemma transformar_fechas w hourly df c :
  transformar w hourly = Normal df → buscar "fecha_hora" df = Some c →
  Forall fecha_escrita c.
Proof.
  unfold transformar.
  destruct (pd_DataFrame hourly) as [df0|]; cbn [mbind resultado_bind]; [|done].
  destruct (setitem_por _ _ df0) as [df1|]; cbn [mbind resultado_bind]; [|done].
  destruct (setitem_por _ _ df1) as [df2|]; cbn [mbind resultado_bind]; [|done].
  destruct (seleccionar _ _) as [df4|]; cbn [mbind resultado_bind]; [|done].
  unfold setitem_fecha. destruct (con_etiqueta _ df4) as [|[l c0] [|]]; try done.
  destruct (para_cada _ c0) as [c'|] eqn:Ep; cbn; [|done].
  intros [= <-] Hb. apply buscar_asignar in Hb as ->.
  eapply para_cada_Forall; [|exact Ep].
  intros a b. unfold fecha_a_texto, fecha_escrita.
  destruct (to_datetime w a) as [[t|]|]; [|by intros [= <-]; left|done].
  destruct (en_rango_Timestamp t) eqn:Et; [|done]. intros [= <-]. right. by exists t.
Qed.

Lemma en_rango_valido t : en_rango_Timestamp t = true → Fecha.valido t = true.
Proof. unfold en_rango_Timestamp. intros H. by desarmar. Qed.

(** C5: a timestamp in the [fecha_hora] column of the file a run leaves has
    the layout [YYYY-MM-DDTHH:MM], and parsing it with the format and
    formatting the result gives the same string back. *)
Theorem fecha_hora_formato w fs archivo i s :
  archivos (snd (ejecutar w fs)) !! ARCHIVO_SALIDA = Some archivo →
  celda_de archivo "fecha_hora" i = Some (Texto s) →
  Fecha.formato_minuto s = true ∧
  ∃ t, Fecha.strptime s "%Y-%m-%dT%H:%M" = Some t ∧ Fecha.strftime t "%Y-%m-%dT%H:%M" = s.
Proof.
  intros Ha Hc.
  apply archivo_escrito in Ha as (r & hourly & df & k & _ & _ & Ht & -> & _).
  apply celda_de_tabla in Hc as (c & Hb & Hx & Hi).
  pose proof (transformar_fechas _ _ _ _ Ht Hb) as Hf.
  assert (fecha_escrita (Texto s)) as [|(t & Hr & [= ->])]; [|done|].
  { rewrite Hx. destruct (decide (i < length c)%nat) as [Hl|Hl].
    - rewrite List.Forall_forall in Hf. apply Hf. by apply nth_In.
    - rewrite nth_overflow by lia. by left. }
  apply en_rango_valido in Hr.
  split; [by apply formato_strftime|by apply ida_y_vuelta].
Qed.

(** ** Errors *)


(** What the [try] block can raise, and the state it raises it in. *)
Lemma cuerpo_lanza w lat lon sd ed path st0 e st1 :
  cuerpo w lat lon sd ed path st0 = (Lanza e, st1) →
  es_Exception e = true ∧
  (es_HTTPError e = true → is_Some (response st1)) ∧
  ((∀ k, disco_de w path ≠ FallaTras k) → archivos st1 = archivos st0).
Proof.
  unfold cuerpo, requests_get, asignar_response, print, elevar, to_csv,
    raise_for_status, response_json, getitem_hourly, mbind, mret, M_bind, M_ret.
  cbn [fst snd archivos consola response].
  destruct (servidor w _ _) as [[|]|r]; cbn; try by intros [= <- <-].
  destruct ((400 <=? status_code r) && (status_code r <? 600)); cbn;
    [by intros [= <- <-]; eauto|].
  destruct (json r) as [[|[hourly|]]|]; cbn; try by intros [= <- <-].
  destruct (transformar w hourly) as [df|e'] eqn:Et; cbn.
  - destruct (disco_de w path) as [| |k] eqn:Ed; cbn; [done| |].
    + by intros [= <- <-].
    + intros [= <- <-]. split; [done|]. split; [done|]. intros H. by destruct (H k).
  - intros [= <- <-]. cbn. split; [by eapply transformar_lanza|]. split; [by eauto|done].
Qed.



(** C10: the function returns normally whatever the server, the parser and
    the disk do, and whatever its [try] block raises derives from
    [Exception], so one of the two handlers takes it. *)
Theorem descargar_no_propaga w lat lon sd ed path st :
  fst (descargar_datos_historicos w lat lon sd ed path st) = Normal tt ∧
  ∀ st0 e st1, cuerpo w lat lon sd ed path st0 = (Lanza e, st1) →
               es_HTTPError e = true ∨ es_Exception e = true.
Proof.
  split; [apply no_propaga|]. intros st0 e st1 H. right. by apply cuerpo_lanza in H as [? _].
Qed.

(** C7: whatever the outcome of the download (a written file, an HTTP
    error, any other failure), the main block ends normally and the exit
    status is 0. *)
Theorem salida_cero w fs : codigo_salida (fst (ejecutar w fs)) = 0.
Proof. rewrite main_es_descargar, no_propaga. reflexivity. Qed.

(** ** An HTTP error *)

Lemma descargar_http_400 w lat lon sd ed path st r :
  servidor w api_url (params lat lon sd ed) = Contesta r →
  status_code r = 400 →
  descargar_datos_historicos w lat lon sd ed path st
  = (Normal tt,
     mk_Estado (archivos st)
       (consola st ++ [MsgSolicitando sd ed; MsgErrorHTTP (HTTPError 400);
                       MsgRespuestaServidor (text r)])
       (Some r)).
Proof.
  intros Hs H400. correr. rewrite Hs. cbn. rewrite H400. cbn.
  by rewrite <- !app_assoc.
Qed.

(** C1, as the code has it: on a 400 response the download function
    touches no file and reports the [HTTPError]; the main block has by then
    removed whatever was at the destination, so after the run there is no
    file there. *)
Theorem http_400_sin_archivo w fs r :
  servidor w api_url (params LATITUD LONGITUD FECHA_INICIO (FECHA_FIN w)) = Contesta r →
  status_code r = 400 →
  (∀ st, archivos (snd (descargar_datos_historicos w LATITUD LONGITUD FECHA_INICIO
                          (FECHA_FIN w) ARCHIVO_SALIDA st)) = archivos st) ∧
  archivos (snd (ejecutar w fs)) = delete ARCHIVO_SALIDA fs ∧
  fst (ejecutar w fs) = Normal tt ∧
  In (MsgErrorHTTP (HTTPError 400)) (consola (snd (ejecutar w fs))).
Proof.
  intros Hs H400. split; [|split; [|split]].
  - intros st. by rewrite (descargar_http_400 _ _ _ _ _ _ _ r).
  - rewrite main_es_descargar. by rewrite (descargar_http_400 _ _ _ _ _ _ _ r).
  - rewrite main_es_descargar. by rewrite (descargar_http_400 _ _ _ _ _ _ _ r).
  - rewrite main_es_descargar. rewrite (descargar_http_400 _ _ _ _ _ _ _ r) by done.
    cbn. apply in_or_app. right. right. by left.
Qed.

(** C1 as stated fails: a file that was at the destination before a run
    that meets a 400 response is gone after it. *)
Lemma archivo_previo_eliminado :
  let w := mundo respuesta_400 Escribe in
  let fs : gmap string (list (list celda)) := {[ARCHIVO_SALIDA := archivo_viejo]} in
  servidor w api_url (params LATITUD LONGITUD FECHA_INICIO (FECHA_FIN w)) = Contesta respuesta_400 ∧
  status_code respuesta_400 = 400 ∧
  fs !! ARCHIVO_SALIDA = Some archivo_viejo ∧
  archivos (snd (ejecutar w fs)) !! ARCHIVO_SALIDA = None ∧
  archivos (snd (ejecutar w fs)) ≠ fs.
Proof.
  cbn zeta. split; [done|]. split; [done|]. split; [by vm_compute|].
  split; [by vm_compute|].
  intros H. apply (f_equal (λ m, m !! ARCHIVO_SALIDA)) in H. by vm_compute in H.
Qed.

(** ** The end date *)

Lemma dias_del_mes_no_negativo y m : 0 <= Fecha.dias_del_mes y m.
Proof. unfold Fecha.dias_del_mes. repeat case_match; lia. Qed.

Lemma strftime_dia t :
  0 <= Fecha.year t < 10000 → 0 <= Fecha.month t < 100 → 0 <= Fecha.day t < 100 →
  Fecha.strftime t "%Y-%m-%d" = Fecha.dia_en_digitos t.
Proof.
  intros Hy Hm Hd. cbn -[Fecha.cuatro_digitos Fecha.dos_digitos].
  rewrite cuatro_digitos_forma, !dos_digitos_forma by lia. reflexivity.
Qed.

Lemma dia_en_digitos_inyectiva t t' :
  0 <= Fecha.year t < 10000 → 0 <= Fecha.month t < 100 → 0 <= Fecha.day t < 100 →
  0 <= Fecha.year t' < 10000 → 0 <= Fecha.month t' < 100 → 0 <= Fecha.day t' < 100 →
  Fecha.dia_en_digitos t = Fecha.dia_en_digitos t' →
  Fecha.year t = Fecha.year t' ∧ Fecha.month t = Fecha.month t' ∧ Fecha.day t = Fecha.day t'.
Proof.
  intros Ba Bb Bc Bd Be Bf. unfold Fecha.dia_en_digitos. intros Heq.
  injection Heq as H1 H2 H3 H4 H5 H6 H7 H8.
  apply (f_equal Fecha.valor_digito) in H1, H2, H3, H4, H5, H6, H7, H8.
  rewrite !digito_valor in *.
  injection H1 as H1. injection H2 as H2. injection H3 as H3. injection H4 as H4.
  injection H5 as H5. injection H6 as H6. injection H7 as H7. injection H8 as H8.
  repeat split; Z.div_mod_to_equations; lia.
Qed.

(** On any valid clock the end date the main block computes differs from
    the date of the day before. *)
Lemma fecha_fin_nunca_ayer w :
  Fecha.valido (now w) = true →
  FECHA_FIN w ≠ Fecha.strftime (Fecha.dia_anterior (now w)) "%Y-%m-%d".
Proof.
  intros Hv. apply valido_cotas in Hv. unfold FECHA_FIN.
  pose proof (dias_del_mes_no_negativo (Fecha.year (now w)) (Fecha.month (now w) - 1)).
  pose proof (dias_del_mes_cota (Fecha.year (now w)) (Fecha.month (now w) - 1)).
  assert (0 <= Fecha.year (Fecha.dia_anterior (now w)) < 10000 ∧
          0 <= Fecha.month (Fecha.dia_anterior (now w)) < 100 ∧
          0 <= Fecha.day (Fecha.dia_anterior (now w)) < 100 ∧
          (Fecha.year (Fecha.dia_anterior (now w)) ≠ Fecha.year (now w) ∨
           Fecha.month (Fecha.dia_anterior (now w)) ≠ Fecha.month (now w) ∨
           Fecha.day (Fecha.dia_anterior (now w)) ≠ Fecha.day (now w))) as (? & ? & ? & Hne).
  { unfold Fecha.dia_anterior.
    destruct (1 <? Fecha.day (now w)) eqn:E1; [cbn; apply Z.ltb_lt in E1; lia|].
    destruct (1 <? Fecha.month (now w)) eqn:E2; cbn; [apply Z.ltb_lt in E2; lia|lia]. }
  rewrite !strftime_dia by lia. intros Heq.
  apply dia_en_digitos_inyectiva in Heq; lia.
Qed.

(** C2, on the code: at 14:30 on 10 March 2025 the end date of the request
    is that same day, not the day before. *)
Theorem fecha_fin_es_hoy :
  let w := mundo respuesta_400 Escribe in
  now w = Fecha.mk_datetime 2025 3 10 14 30 5 ∧
  FECHA_FIN w = "2025-03-10" ∧
  buscar "end_date" (params LATITUD LONGITUD FECHA_INICIO (FECHA_FIN w)) = Some (PTexto "2025-03-10") ∧
  Fecha.strftime (Fecha.dia_anterior (now w)) "%Y-%m-%d" = "2025-03-09".
Proof. cbn zeta. repeat split; by vm_compute. Qed.

(** ** Empty arrays *)

Lemma entrada_vacia (hourly : list (string * list celda)) k :
  Forall (λ kc, snd kc = []) hourly → entrada hourly k = [].
Proof.
  unfold entrada. induction hourly as [|[l c] hourly IH]; [done|]. cbn.
  intros H. apply Forall_cons in H as [Hc H]. cbn in Hc. subst.
  destruct (String.eqb l k); [done|by apply IH].
Qed.

Lemma len_vacio (hourly : list (string * list celda)) :
  Forall (λ kc, snd kc = []) hourly → len hourly = 0%nat.
Proof.
  destruct hourly as [|[l c] ?]; [done|]. intros H.
  apply Forall_cons in H as [Hc _]. cbn in Hc. by subst.
Qed.

(** C8: when the response gives an empty array for every field and the
    write goes through, the file a run leaves is the header line alone. *)
Theorem arreglos_vacios w fs r hourly :
  servidor w api_url (params LATITUD LONGITUD FECHA_INICIO (FECHA_FIN w)) = Contesta r →
  ¬ (400 <= status_code r < 600) →
  json r = Some (JsonObjeto (Some hourly)) →
  claves_api hourly →
  Forall (λ k, In k (map fst hourly)) ("time" :: variables_horarias) →
  Forall (λ kc, snd kc = []) hourly →
  disco_de w ARCHIVO_SALIDA = Escribe →
  archivos (snd (ejecutar w fs)) !! ARCHIVO_SALIDA
  = Some [[Texto "fecha_hora"; Texto "temperatura_C"; Texto "humedad_%";
           Texto "punto_rocio_C"; Texto "presion_hPa"; Texto "precipitacion_mm";
           Texto "viento_velocidad_kmh"; Texto "viento_rafaga_kmh";
           Texto "viento_direccion_°"; Texto "codigo_clima_wmo"]].
Proof.
  intros Hs Hst Hj Hapi Hk Hv Hd.
  assert (transformar w hourly = Normal (tabla_del_spec hourly [])) as Ht.
  { apply (transformar_exito w hourly [] []); try done.
    - rewrite (len_vacio _ Hv). eapply Forall_impl; [exact Hv|]. intros [l c]. cbn. by intros ->.
    - by rewrite entrada_vacia.
    - by rewrite entrada_vacia.
    - by rewrite entrada_vacia. }
  rewrite ejecutar_archivos. unfold etapas. rewrite Hs.
  unfold raise_for_status, response_json.
  assert ((400 <=? status_code r) && (status_code r <? 600) = false) as ->.
  { apply not_true_is_false. intros H. desarmar. lia. }
  rewrite Hj. cbn. rewrite Ht, Hd, lookup_insert_eq.
  unfold tabla_del_spec, tabla_csv, filas. rewrite !entrada_vacia by done. reflexivity.
Qed.

(** ** The model at work *)

Ltac claves := split; apply (bool_decide_unpack _); vm_compute; exact I.

Example strftime_ej :
  Fecha.strftime (Fecha.mk_datetime 2024 1 2 3 4 5) "%Y-%m-%dT%H:%M" = "2024-01-02T03:04".
Proof. reflexivity. Qed.

Example strptime_ej :
  Fecha.strptime "2024-01-02T03:04" "%Y-%m-%dT%H:%M" = Some (Fecha.mk_datetime 2024 1 2 3 4 0).
Proof. reflexivity. Qed.

Example formato_ej :
  Fecha.formato_minuto "2024-01-02T03:04" = true ∧ Fecha.formato_minuto "2024-1-2T03:04" = false.
Proof. split; reflexivity. Qed.

Example diez_ms :
  por_3_6 [Real 10; Entero 10; Real 1.1; Nulo]
  = [Real 36; Real 36; Real 3.9600000000000004; Real nan]%float.
Proof. reflexivity. Qed.

(** The scenario of forty-eight hours at 10 m/s: forty-nine lines, and 36
    km/h in every row. *)
Example escenario_48_horas :
  ∃ archivo,
    archivos (snd (ejecutar (mundo (respuesta_ok hourly_48) Escribe) ∅)) !! ARCHIVO_SALIDA
      = Some archivo ∧
    length archivo = 49%nat ∧
    map (celda_de archivo "viento_velocidad_kmh") (seq 0 48) = replicate 48 (Some (Real 36)).
Proof. eexists. split; [by vm_compute|]. split; by vm_compute. Qed.

Lemma http_400_sin_archivo_testigo :
  let w := mundo respuesta_400 Escribe in
  let fs : gmap string (list (list celda)) := {[ARCHIVO_SALIDA := archivo_viejo]} in
  servidor w api_url (params LATITUD LONGITUD FECHA_INICIO (FECHA_FIN w)) = Contesta respuesta_400 ∧
  status_code respuesta_400 = 400 ∧
  (∀ st, archivos (snd (descargar_datos_historicos w LATITUD LONGITUD FECHA_INICIO
                          (FECHA_FIN w) ARCHIVO_SALIDA st)) = archivos st) ∧
  archivos (snd (ejecutar w fs)) = delete ARCHIVO_SALIDA fs ∧
  fst (ejecutar w fs) = Normal tt ∧
  In (MsgErrorHTTP (HTTPError 400)) (consola (snd (ejecutar w fs))).
Proof.
  cbn zeta. split; [reflexivity|]. split; [reflexivity|].
  apply (http_400_sin_archivo (mundo respuesta_400 Escribe) _ respuesta_400); reflexivity.
Defined.


Lemma columnas_en_orden_testigo :
  let w := mundo (respuesta_ok hourly_dos_horas) Escribe in
  ∃ archivo encabezado,
    archivos (snd (ejecutar w ∅)) !! ARCHIVO_SALIDA = Some archivo ∧
    claves_api hourly_dos_horas ∧
    archivo !! 0%nat = Some encabezado ∧
    encabezado = [Texto "fecha_hora"; Texto "temperatura_C"; Texto "humedad_%";
                  Texto "punto_rocio_C"; Texto "presion_hPa"; Texto "precipitacion_mm";
                  Texto "viento_velocidad_kmh"; Texto "viento_rafaga_kmh";
                  Texto "viento_direccion_°"; Texto "codigo_clima_wmo"].
Proof.
  cbn zeta. eexists. eexists. split; [vm_compute; reflexivity|]. split; [claves|].
  split; [reflexivity|].
  eapply (columnas_en_orden (mundo (respuesta_ok hourly_dos_horas) Escribe) ∅
            (respuesta_ok hourly_dos_horas) hourly_dos_horas);
    [reflexivity | reflexivity | claves | vm_compute; reflexivity | reflexivity].
Defined.

Lemma fecha_hora_formato_testigo :
  let w := mundo (respuesta_ok hourly_dos_horas) Escribe in
  ∃ archivo,
    archivos (snd (ejecutar w ∅)) !! ARCHIVO_SALIDA = Some archivo ∧
    celda_de archivo "fecha_hora" 1%nat = Some (Texto "2024-01-01T01:00") ∧
    Fecha.formato_minuto "2024-01-01T01:00" = true ∧
    ∃ t, Fecha.strptime "2024-01-01T01:00" "%Y-%m-%dT%H:%M" = Some t ∧
         Fecha.strftime t "%Y-%m-%dT%H:%M" = "2024-01-01T01:00".
Proof.
  cbn zeta. eexists. split; [vm_compute; reflexivity|]. split; [vm_compute; reflexivity|].
  eapply (fecha_hora_formato (mundo (respuesta_ok hourly_dos_horas) Escribe) ∅ _ 1%nat);
    vm_compute; reflexivity.
Defined.


Lemma arreglos_vacios_testigo :
  let w := mundo (respuesta_ok hourly_vacio) Escribe in
  ¬ (400 <= status_code (respuesta_ok hourly_vacio) < 600) ∧
  claves_api hourly_vacio ∧
  Forall (λ k, In k (map fst hourly_vacio)) ("time" :: variables_horarias) ∧
  Forall (λ kc, snd kc = []) hourly_vacio ∧
  archivos (snd (ejecutar w ∅)) !! ARCHIVO_SALIDA
  = Some [[Texto "fecha_hora"; Texto "temperatura_C"; Texto "humedad_%";
           Texto "punto_rocio_C"; Texto "presion_hPa"; Texto "precipitacion_mm";
           Texto "viento_velocidad_kmh"; Texto "viento_rafaga_kmh";
           Texto "viento_direccion_°"; Texto "codigo_clima_wmo"]].
Proof.
  cbn zeta.
  assert (¬ (400 <= status_code (respuesta_ok hourly_vacio) < 600)) as H1 by (cbn; lia).
  assert (claves_api hourly_vacio) as H2 by claves.
  assert (Forall (λ k, In k (map fst hourly_vacio)) ("time" :: variables_horarias)) as H3
    by (repeat apply List.Forall_cons; try apply List.Forall_nil;
        vm_compute; repeat ((left; reflexivity) || right)).
  assert (Forall (λ kc : string * list celda, snd kc = []) hourly_vacio) as H4
    by (repeat apply List.Forall_cons; try apply List.Forall_nil; reflexivity).
  split; [exact H1|]. split; [exact H2|]. split; [exact H3|]. split; [exact H4|].
  apply (arreglos_vacios (mundo (respuesta_ok hourly_vacio) Escribe) ∅
           (respuesta_ok hourly_vacio) hourly_vacio);
    [reflexivity | exact H1 | reflexivity | exact H2 | exact H3 | exact H4 | reflexivity].
Defined.


(** * More of the function *)

(** ** When the transformation succeeds *)

Lemma multiplicar_columna_cada k x (df df' : DataFrame) c :
  multiplicar_columna k x df = Normal df' → In (k, c) df →
  ∃ c', multiplicar c x = Normal c'.
Proof.
  revert df'. induction df as [|[l c0] df IH]; intros df'; cbn; [done|].
  destruct (String.eqb_spec l k) as [->|Hne].
  - destruct (multiplicar c0 x) as [c1|] eqn:Em; cbn; [|done].
    destruct (multiplicar_columna k x df) as [df''|]; cbn; [|done].
    intros _ [[= <-]|Hin]; [by exists c1|]. by eapply IH.
  - cbn. destruct (multiplicar_columna k x df) as [df''|]; cbn; [|done].
    intros _ [[= ? ?]|Hin]; [done|]. by eapply IH.
Qed.

Lemma setitem_por_cada k x (df df' : DataFrame) c :
  setitem_por k x df = Normal df' → buscar k df = Some c →
  ∃ c', multiplicar c x = Normal c'.
Proof.
  unfold setitem_por. destruct (contiene df k); [|done].
  intros H Hb. eapply multiplicar_columna_cada; [exact H|]. by apply buscar_In.
Qed.

(** The conditions under which every stage goes through. *)
Lemma transformar_exito_inv w hourly df :
  claves_api hourly → transformar w hourly = Normal df →
  Forall (λ k, In k (map fst hourly)) ("time" :: variables_horarias) ∧
  Forall (λ kc, length (snd kc) = len hourly) hourly ∧
  (∃ ws, multiplicar (entrada hourly "wind_speed_10m") 3.6 = Normal ws) ∧
  (∃ gs, multiplicar (entrada hourly "wind_gusts_10m") 3.6 = Normal gs) ∧
  ∃ fechas, para_cada (fecha_a_texto w "%Y-%m-%dT%H:%M") (entrada hourly "time") = Normal fechas ∧
            df = tabla_del_spec hourly fechas.
Proof.
  intros Hapi Ht. pose proof Ht as Ht'. revert Ht'. unfold transformar.
  destruct (pd_DataFrame hourly) as [df0|] eqn:E0; [|done].
  apply pd_DataFrame_ok in E0 as [-> Hlen]. cbn [mbind resultado_bind].
  destruct (setitem_por "wind_speed_10m" _ hourly) as [df1|] eqn:E1; [|done].
  pose proof E1 as E1'. apply setitem_por_ok in E1' as ->. cbn [mbind resultado_bind].
  match goal with |- context [setitem_por ?k ?x ?d] =>
    destruct (setitem_por k x d) as [df2|] eqn:E2; [|done] end.
  pose proof E2 as E2'. apply setitem_por_ok in E2' as ->. cbn [mbind resultado_bind].
  fold por_3_6.
  match goal with |- context [seleccionar ?k ?d] =>
    destruct (seleccionar k d) as [df4|] eqn:E4; [|done] end.
  apply seleccionar_ok in E4 as [-> Hc]. intros _.
  destruct (seleccion_forma hourly Hapi Hc) as [_ Hs].
  assert (∀ k, is_Some (buscar k hourly) → buscar k hourly = Some (entrada hourly k)) as Hb.
  { intros k [c Hk]. unfold entrada. by rewrite Hk. }
  pose proof Hs as Hs'. unfold variables_horarias in Hs'.
  repeat (apply Forall_cons in Hs' as [? Hs']). cbn beta in *.
  split; [|split; [done|split; [|split]]].
  - eapply Forall_impl; [exact Hs|]. intros k [c Hk]. cbn beta in Hk.
    apply in_map_iff. exists (k, c). split; [done|]. by apply buscar_In.
  - eapply setitem_por_cada; [exact E1|]. by apply Hb.
  - eapply setitem_por_cada; [exact E2|]. rewrite buscar_aplicar_otro by done. by apply Hb.
  - apply transformar_forma in Ht as (fechas & ? & ? & _); [|done]. by exists fechas.
Qed.


Lemma entrada_permutada (h h' : list (string * list celda)) k :
  NoDup (map fst h) → h ≡ₚ h' → entrada h' k = entrada h k.
Proof.
  intros Hnd Hp. assert (NoDup (map fst h')) as Hnd' by (by rewrite <- Hp).
  unfold entrada. destruct (buscar k h) as [c|] eqn:E.
  - apply buscar_In in E. rewrite (In_buscar k c h'); [done|done|].
    apply list_elem_of_In. rewrite <- Hp. by apply list_elem_of_In.
  - destruct (buscar k h') as [c'|] eqn:E'; [|done].
    apply buscar_In in E'. rewrite (In_buscar k c' h) in E; [done|done|].
    apply list_elem_of_In. rewrite Hp. by apply list_elem_of_In.
Qed.

Lemma len_permutada (h h' : list (string * list celda)) :
  Forall (λ kc, length (snd kc) = len h) h → h ≡ₚ h' → len h' = len h.
Proof.
  intros Hl Hp. destruct h' as [|[k c] h'].
  - apply Permutation_nil_r in Hp. by subst.
  - cbn. rewrite List.Forall_forall in Hl. apply (Hl (k, c)).
    apply list_elem_of_In. rewrite Hp. by left.
Qed.

(** X2: the order of the keys of [hourly] does not change the table. *)
Theorem orden_de_claves w hourly hourly' df :
  claves_api hourly → hourly ≡ₚ hourly' →
  transformar w hourly = Normal df → transformar w hourly' = Normal df.
Proof.
  intros Hapi Hp Ht.
  destruct (transformar_exito_inv w hourly df Hapi Ht)
    as (Hk & Hl & [ws Hws] & [gs Hgs] & fechas & Hf & ->).
  destruct Hapi as [Hnd Hcol].
  assert (∀ k, entrada hourly' k = entrada hourly k) as He
    by (intros k; by apply entrada_permutada).
  assert (tabla_del_spec hourly fechas = tabla_del_spec hourly' fechas) as ->.
  { unfold tabla_del_spec. by rewrite !He. }
  apply (transformar_exito w hourly' ws gs).
  - split; by rewrite <- Hp.
  - eapply Forall_impl; [exact Hk|]. intros k Hin. cbn beta in *.
    apply list_elem_of_In. rewrite <- Hp. by apply list_elem_of_In.
  - rewrite (len_permutada hourly hourly') by done. by rewrite <- Hp.
  - by rewrite He.
  - by rewrite He.
  - by rewrite He.
Qed.

(** ** The shape of the file *)

Lemma archivo_con_fechas w fs r hourly archivo :
  servidor w api_url (params LATITUD LONGITUD FECHA_INICIO (FECHA_FIN w)) = Contesta r →
  json r = Some (JsonObjeto (Some hourly)) →
  claves_api hourly →
  archivos (snd (ejecutar w fs)) !! ARCHIVO_SALIDA = Some archivo →
  ∃ fechas k,
    para_cada (fecha_a_texto w "%Y-%m-%dT%H:%M") (entrada hourly "time") = Normal fechas ∧
    archivo = take k (tabla_csv (tabla_del_spec hourly fechas)) ∧
    (disco_de w ARCHIVO_SALIDA = Escribe → archivo = tabla_csv (tabla_del_spec hourly fechas)) ∧
    len (tabla_del_spec hourly fechas) = len hourly ∧
    length (entrada hourly "time") = len hourly.
Proof.
  intros Hs Hj Hapi Ha.
  apply archivo_escrito in Ha as (r' & hourly' & df & k & Hs' & Hj' & Ht & -> & He).
  assert (r' = r) as -> by congruence. assert (hourly' = hourly) as -> by congruence.
  apply transformar_forma in Ht as (fechas & Hf & -> & Hlen & _ & Hk); [|done].
  apply Forall_cons in Hk as [Hk _]. by exists fechas, k.
Qed.




Lemma para_cada_lookup {A B} (f : A → resultado B) l l' i b :
  para_cada f l = Normal l' → l' !! i = Some b →
  ∃ a, l !! i = Some a ∧ f a = Normal b.
Proof.
  revert l' i. induction l as [|a l IH]; intros l' i; cbn; [by intros [= <-]|].
  destruct (f a) as [b0|] eqn:Ea; [|done]. destruct (para_cada f l) as [bs|]; [|done].
  intros [= <-]. destruct i as [|i]; cbn.
  - intros [= <-]. by exists a.
  - by apply IH.
Qed.

(** X4: row [i] of the [fecha_hora] column is what line 84 makes of entry
    [i] of the response's [time] array: the rows keep the response's order. *)
Theorem fecha_hora_por_fila w fs r hourly archivo i x :
  servidor w api_url (params LATITUD LONGITUD FECHA_INICIO (FECHA_FIN w)) = Contesta r →
  json r = Some (JsonObjeto (Some hourly)) →
  claves_api hourly →
  archivos (snd (ejecutar w fs)) !! ARCHIVO_SALIDA = Some archivo →
  celda_de archivo "fecha_hora" i = Some x →
  ∃ v, entrada hourly "time" !! i = Some v ∧
       fecha_a_texto w "%Y-%m-%dT%H:%M" v = Normal x.
Proof.
  intros Hs Hj Hapi Ha Hc.
  destruct (archivo_con_fechas w fs r hourly archivo Hs Hj Hapi Ha)
    as (fechas & k & Hf & -> & _ & Hlen & Ht).
  apply (columna_escrita _ _ _ fechas) in Hc; [|reflexivity|].
  - by eapply para_cada_lookup.
  - apply para_cada_longitud in Hf. cbn in Hlen |- *. congruence.
Qed.

(** ** What a run does to the file system *)

(** X5: a run touches no path but the destination. *)
Theorem otros_archivos_intactos w fs path :
  path ≠ ARCHIVO_SALIDA →
  archivos (snd (ejecutar w fs)) !! path = fs !! path.
Proof.
  intros Hne. rewrite ejecutar_archivos.
  destruct (etapas _ _ _ _ _) as [df|]; [destruct (disco_de w ARCHIVO_SALIDA)|];
    rewrite ?lookup_insert_ne by done; by rewrite lookup_delete_ne.
Qed.

(** X6: what a run leaves at the destination does not depend on what was
    there, or anywhere else, before; so a second run in the same world
    changes nothing. *)
Theorem destino_sin_memoria w fs fs' :
  archivos (snd (ejecutar w fs)) !! ARCHIVO_SALIDA
  = archivos (snd (ejecutar w fs')) !! ARCHIVO_SALIDA ∧
  archivos (snd (ejecutar w (archivos (snd (ejecutar w fs))))) = archivos (snd (ejecutar w fs)).
Proof.
  split.
  - rewrite !ejecutar_archivos.
    destruct (etapas _ _ _ _ _) as [df|]; [destruct (disco_de w ARCHIVO_SALIDA)|];
      by rewrite ?lookup_insert_eq, ?lookup_delete_eq.
  - rewrite (ejecutar_archivos w (archivos _)). rewrite !ejecutar_archivos.
    destruct (etapas _ _ _ _ _) as [df|]; [destruct (disco_de w ARCHIVO_SALIDA)|];
      rewrite ?delete_insert_eq, ?delete_delete_eq; try done.
Qed.

(** X7: a file is at the destination after a run only if the server
    answered with a status outside 400..599 and a JSON object that has
    [hourly], and the transformation of it went through. *)
Theorem archivo_solo_con_datos w fs archivo :
  archivos (snd (ejecutar w fs)) !! ARCHIVO_SALIDA = Some archivo →
  ∃ r hourly df,
    servidor w api_url (params LATITUD LONGITUD FECHA_INICIO (FECHA_FIN w)) = Contesta r ∧
    ¬ (400 <= status_code r < 600) ∧
    json r = Some (JsonObjeto (Some hourly)) ∧
    transformar w hourly = Normal df ∧
    disco_de w ARCHIVO_SALIDA ≠ NoAbre.
Proof.
  rewrite ejecutar_archivos.
  destruct (etapas _ _ _ _ _) as [df|] eqn:Ee; [|by rewrite lookup_delete_eq].
  apply etapas_normal in Ee as (r & hourly & Hs & Hst & Hj & Ht).
  intros Ha. exists r, hourly, df. split; [done|]. split.
  - unfold raise_for_status in Hst. intros [? ?].
    rewrite (proj2 (Z.leb_le _ _)), (proj2 (Z.ltb_lt _ _)) in Hst by done. done.
  - split; [done|]. split; [done|]. intros Hd. rewrite Hd in Ha.
    by rewrite lookup_delete_eq in Ha.
Qed.

(** ** What the console says *)

Lemma multiplicar_clase c x e : multiplicar c x = Lanza e → de_la_transformacion e = true.
Proof. unfold multiplicar. repeat case_match; try done; by intros [= <-]. Qed.

Lemma multiplicar_columna_clase k x df e :
  multiplicar_columna k x df = Lanza e → de_la_transformacion e = true.
Proof.
  induction df as [|[l c] df IH]; cbn; [done|].
  destruct (String.eqb l k).
  - destruct (multiplicar c x) eqn:Em; cbn; [|intros [= <-]; by eapply multiplicar_clase].
    destruct (multiplicar_columna k x df); cbn; [done|]. intros [= <-]. by apply IH.
  - cbn. destruct (multiplicar_columna k x df); cbn; [done|]. intros [= <-]. by apply IH.
Qed.

(** The transformation raises [ValueError], [KeyError], [TypeError] or
    [OverflowError], nothing else. *)
Lemma transformar_clase w hourly e :
  transformar w hourly = Lanza e → de_la_transformacion e = true.
Proof.
  unfold transformar.
  destruct (pd_DataFrame hourly) as [df0|e0] eqn:E0; cbn [mbind resultado_bind].
  2:{ intros [= <-]. unfold pd_DataFrame in E0. repeat case_match; try done. by injection E0 as <-. }
  destruct (setitem_por _ _ df0) as [df1|e1] eqn:E1; cbn [mbind resultado_bind].
  2:{ intros [= <-]. unfold setitem_por in E1. case_match;
        [by eapply multiplicar_columna_clase|by injection E1 as <-]. }
  destruct (setitem_por _ _ df1) as [df2|e2] eqn:E2; cbn [mbind resultado_bind].
  2:{ intros [= <-]. unfold setitem_por in E2. case_match;
        [by eapply multiplicar_columna_clase|by injection E2 as <-]. }
  destruct (seleccionar _ _) as [df4|e4] eqn:E4; cbn [mbind resultado_bind].
  2:{ intros [= <-]. unfold seleccionar in E4. case_match; [|done]. by injection E4 as <-. }
  unfold setitem_fecha. destruct (con_etiqueta _ df4) as [|[l c] [|]]; try by intros [= <-].
  destruct (para_cada _ c) eqn:Ep; cbn; [done|]. intros [= <-].
  eapply (para_cada_lanza (λ e, de_la_transformacion e = true)); [|exact Ep].
  intros a e'. unfold fecha_a_texto. repeat case_match; try done; by intros [= <-].
Qed.

Lemma descargar_consola w lat lon sd ed path st :
  consola (snd (descargar_datos_historicos w lat lon sd ed path st))
  = (consola st ++ MsgSolicitando sd ed :: informe w lat lon sd ed path)%list.
Proof.
  unfold informe. por_etapas w r hourly df e Et; rewrite <- ?app_assoc; cbn; try done.
  apply transformar_clase in Et. by destruct e.
Qed.

Lemma ejecutar_consola w fs :
  consola (snd (ejecutar w fs))
  = ((if bool_decide (is_Some (fs !! ARCHIVO_SALIDA))
      then [MsgDescargando FECHA_INICIO (FECHA_FIN w); MsgEliminado ARCHIVO_SALIDA]
      else [MsgDescargando FECHA_INICIO (FECHA_FIN w)])
     ++ MsgSolicitando FECHA_INICIO (FECHA_FIN w)
     :: informe w LATITUD LONGITUD FECHA_INICIO (FECHA_FIN w) ARCHIVO_SALIDA)%list.
Proof. rewrite main_es_descargar. apply descargar_consola. Qed.

Ltac en_lista :=
  repeat match goal with
  | H : In _ (_ ++ _) |- _ => apply in_app_or in H; destruct H
  | H : In _ (if ?b then _ else _) |- _ => destruct b
  | H : In _ (_ :: _) |- _ => destruct H
  | H : In _ [] |- _ => destruct H
  end; try discriminate.

(** X8: an HTTP error is reported exactly when the server answers with a
    status from 400 to 599. *)
Theorem error_http_sii w fs :
  (∃ e, In (MsgErrorHTTP e) (consola (snd (ejecutar w fs)))) ↔
  (∃ r, servidor w api_url (params LATITUD LONGITUD FECHA_INICIO (FECHA_FIN w)) = Contesta r ∧
        400 <= status_code r < 600).
Proof.
  rewrite ejecutar_consola. unfold informe, raise_for_status, response_json.
  destruct (servidor w _ _) as [[|]|r].
  - split; [intros [e H]; en_lista|by intros (r & [=] & _)].
  - split; [intros [e H]; en_lista|by intros (r & [=] & _)].
  - destruct ((400 <=? status_code r) && (status_code r <? 600)) eqn:Es.
    + split; [intros _; exists r; split; [done|by desarmar]|].
      intros _. exists (HTTPError (status_code r)). apply in_or_app. right. right. by left.
    + split.
      * intros [e H]. exfalso.
        destruct (json r) as [[|[hourly|]]|]; cbn in H;
          try destruct (transformar w hourly); try destruct (disco_de w _); en_lista.
      * intros (r' & [= <-] & H1 & H2).
        rewrite (proj2 (Z.leb_le _ _)), (proj2 (Z.ltb_lt _ _)) in Es by done. done.
Qed.


(** X10: the summary line is printed only over a whole file: when the
    console has "n registros guardados", the destination holds the header
    and [n] data lines, and no error was reported. *)
Theorem resumen_fiable w fs n path :
  In (MsgGuardados n path) (consola (snd (ejecutar w fs))) →
  path = ARCHIVO_SALIDA ∧
  (∃ df, archivos (snd (ejecutar w fs)) !! ARCHIVO_SALIDA = Some (tabla_csv df) ∧
         n = len df ∧ length (tabla_csv df) = S n) ∧
  (∀ e, ¬ In (MsgErrorHTTP e) (consola (snd (ejecutar w fs)))) ∧
  (∀ e, ¬ In (MsgErrorInesperado e) (consola (snd (ejecutar w fs)))).
Proof.
  rewrite ejecutar_archivos, ejecutar_consola.
  unfold etapas, informe, raise_for_status, response_json.
  destruct (servidor w _ _) as [[|]|r]; [solve [intros H; en_lista]..|].
  destruct ((400 <=? status_code r) && (status_code r <? 600)); cbn;
    [solve [intros H; en_lista]|].
  destruct (json r) as [[|[hourly|]]|]; cbn; try solve [intros H; en_lista].
  destruct (transformar w hourly) as [df|e]; [|solve [intros H; en_lista]].
  destruct (disco_de w ARCHIVO_SALIDA); try solve [intros H; en_lista].
  intros H.
  assert (n = len df ∧ path = ARCHIVO_SALIDA) as [-> ->].
  { en_lista; match goal with H : MsgGuardados _ _ = _ |- _ => by injection H as <- <- end. }
  clear H. split; [done|]. split.
  - exists df. rewrite lookup_insert_eq. split; [done|]. split; [done|].
    unfold tabla_csv. cbn [length]. unfold filas. by rewrite length_map, length_seq.
  - split; intros e H; en_lista.
Qed.


(** X9: any status from 400 to 599 ends the function the same way: the
    body of the answer is not read as JSON, the error and the server's text
    are printed, and no file is touched. *)
Theorem error_http_en_rango w lat lon sd ed path st r :
  servidor w api_url (params lat lon sd ed) = Contesta r →
  400 <= status_code r < 600 →
  descargar_datos_historicos w lat lon sd ed path st
  = (Normal tt,
     mk_Estado (archivos st)
       (consola st ++ [MsgSolicitando sd ed; MsgErrorHTTP (HTTPError (status_code r));
                       MsgRespuestaServidor (text r)])
       (Some r)).
Proof.
  intros Hs [H1 H2]. correr. rewrite Hs. cbn.
  rewrite (proj2 (Z.leb_le _ _)), (proj2 (Z.ltb_lt _ _)) by done. cbn.
  by rewrite <- !app_assoc.
Qed.

(** X14: every run reports its outcome once: the console holds exactly one
    of the summary line, an HTTP error and an unexpected error. *)
Theorem desenlace_unico w fs :
  length (List.filter es_cierre (consola (snd (ejecutar w fs)))) = 1%nat.
Proof.
  rewrite ejecutar_consola, List.filter_app.
  assert (List.filter es_cierre
            (if bool_decide (is_Some (fs !! ARCHIVO_SALIDA))
             then [MsgDescargando FECHA_INICIO (FECHA_FIN w); MsgEliminado ARCHIVO_SALIDA]
             else [MsgDescargando FECHA_INICIO (FECHA_FIN w)]) = []) as ->
    by (by destruct (bool_decide _)).
  unfold informe, raise_for_status, response_json.
  destruct (servidor w _ _) as [[|]|r]; try reflexivity.
  destruct ((400 <=? status_code r) && (status_code r <? 600)); [reflexivity|].
  destruct (json r) as [[|[hourly|]]|]; try reflexivity. cbn.
  destruct (transformar w hourly); [|reflexivity].
  by destruct (disco_de w ARCHIVO_SALIDA).
Qed.

(** ** What the two formats keep *)

Lemma minuto_en_digitos_inyectiva t t' :
  Fecha.valido t = true → Fecha.valido t' = true →
  Fecha.minuto_en_digitos t = Fecha.minuto_en_digitos t' →
  Fecha.al_minuto t = Fecha.al_minuto t'.
Proof.
  intros Hv Hv'. apply valido_cotas in Hv, Hv'.
  unfold Fecha.minuto_en_digitos, Fecha.al_minuto. intros Heq.
  injection Heq as H1 H2 H3 H4 H5 H6 H7 H8 H9 H10 H11 H12.
  apply (f_equal Fecha.valor_digito) in H1, H2, H3, H4, H5, H6, H7, H8, H9, H10, H11, H12.
  rewrite !digito_valor in *.
  injection H1 as H1. injection H2 as H2. injection H3 as H3. injection H4 as H4.
  injection H5 as H5. injection H6 as H6. injection H7 as H7. injection H8 as H8.
  injection H9 as H9. injection H10 as H10. injection H11 as H11. injection H12 as H12.
  f_equal; Z.div_mod_to_equations; lia.
Qed.

(** X12: the format of line 84 drops the seconds and nothing else: two
    valid times print alike exactly when they agree to the minute. *)
Theorem minuto_sin_perdida t t' :
  Fecha.valido t = true → Fecha.valido t' = true →
  (Fecha.strftime t "%Y-%m-%dT%H:%M" = Fecha.strftime t' "%Y-%m-%dT%H:%M"
   ↔ Fecha.al_minuto t = Fecha.al_minuto t').
Proof.
  intros Hv Hv'. rewrite !strftime_minuto by done. split.
  - by apply minuto_en_digitos_inyectiva.
  - unfold Fecha.al_minuto, Fecha.minuto_en_digitos. intros [= -> -> -> -> ->]. reflexivity.
Qed.

(** X13: the end date of the request is the calendar day of the clock:
    two valid clocks give the same [FECHA_FIN] exactly when they show the
    same day, whatever the time of day. *)
Theorem fecha_fin_por_dia w w' :
  Fecha.valido (now w) = true → Fecha.valido (now w') = true →
  (FECHA_FIN w = FECHA_FIN w'
   ↔ Fecha.year (now w) = Fecha.year (now w') ∧
     Fecha.month (now w) = Fecha.month (now w') ∧
     Fecha.day (now w) = Fecha.day (now w')).
Proof.
  intros Hv Hv'. apply valido_cotas in Hv, Hv'. unfold FECHA_FIN.
  rewrite !strftime_dia by lia. split.
  - apply dia_en_digitos_inyectiva; lia.
  - unfold Fecha.dia_en_digitos. intros (-> & -> & ->). reflexivity.
Qed.

(** ** The further properties at work *)

Ltac pertenece := vm_compute; repeat ((left; reflexivity) || right).


Lemma orden_de_claves_testigo :
  let w := mundo (respuesta_ok hourly_dos_horas) Escribe in
  ∃ df,
    claves_api hourly_dos_horas ∧
    hourly_dos_horas ≡ₚ rev hourly_dos_horas ∧
    transformar w hourly_dos_horas = Normal df ∧
    transformar w (rev hourly_dos_horas) = Normal df.
Proof.
  cbn zeta. eexists. split; [claves|]. split; [apply Permutation_rev|].
  split; [vm_compute; reflexivity|].
  eapply (orden_de_claves (mundo (respuesta_ok hourly_dos_horas) Escribe) hourly_dos_horas);
    [claves | apply Permutation_rev | vm_compute; reflexivity].
Defined.


Lemma fecha_hora_por_fila_testigo :
  let w := mundo (respuesta_ok hourly_dos_horas) Escribe in
  ∃ archivo,
    archivos (snd (ejecutar w ∅)) !! ARCHIVO_SALIDA = Some archivo ∧
    claves_api hourly_dos_horas ∧
    celda_de archivo "fecha_hora" 1%nat = Some (Texto "2024-01-01T01:00") ∧
    ∃ v, entrada hourly_dos_horas "time" !! 1%nat = Some v ∧
         fecha_a_texto w "%Y-%m-%dT%H:%M" v = Normal (Texto "2024-01-01T01:00").
Proof.
  cbn zeta. eexists. split; [vm_compute; reflexivity|]. split; [claves|].
  split; [vm_compute; reflexivity|].
  eapply (fecha_hora_por_fila (mundo (respuesta_ok hourly_dos_horas) Escribe) ∅
            (respuesta_ok hourly_dos_horas) hourly_dos_horas);
    [reflexivity | reflexivity | claves | vm_compute; reflexivity | vm_compute; reflexivity].
Defined.

Lemma otros_archivos_intactos_testigo :
  let w := mundo (respuesta_ok hourly_dos_horas) Escribe in
  let fs : gmap string (list (list celda)) := {["otro.csv" := archivo_viejo]} in
  "otro.csv" ≠ ARCHIVO_SALIDA ∧
  archivos (snd (ejecutar w fs)) !! "otro.csv" = fs !! "otro.csv".
Proof.
  cbn zeta.
  assert ("otro.csv" ≠ ARCHIVO_SALIDA) as H by (apply (bool_decide_unpack _); vm_compute; exact I).
  split; [exact H|].
  apply (otros_archivos_intactos (mundo (respuesta_ok hourly_dos_horas) Escribe) _ "otro.csv" H).
Defined.

Lemma archivo_solo_con_datos_testigo :
  let w := mundo (respuesta_ok hourly_dos_horas) Escribe in
  ∃ archivo,
    archivos (snd (ejecutar w ∅)) !! ARCHIVO_SALIDA = Some archivo ∧
    ∃ r hourly df,
      servidor w api_url (params LATITUD LONGITUD FECHA_INICIO (FECHA_FIN w)) = Contesta r ∧
      ¬ (400 <= status_code r < 600) ∧
      json r = Some (JsonObjeto (Some hourly)) ∧
      transformar w hourly = Normal df ∧
      disco_de w ARCHIVO_SALIDA ≠ NoAbre.
Proof.
  cbn zeta. eexists. split; [vm_compute; reflexivity|].
  eapply (archivo_solo_con_datos (mundo (respuesta_ok hourly_dos_horas) Escribe) ∅).
  vm_compute; reflexivity.
Defined.

Lemma error_http_en_rango_testigo :
  let w := mundo respuesta_503 Escribe in
  let st := mk_Estado {["salida.csv" := archivo_viejo]} [] None in
  400 <= status_code respuesta_503 < 600 ∧
  descargar_datos_historicos w LATITUD LONGITUD "2024-01-01" "2024-01-02" "salida.csv" st
  = (Normal tt,
     mk_Estado (archivos st)
       (consola st ++ [MsgSolicitando "2024-01-01" "2024-01-02";
                       MsgErrorHTTP (HTTPError (status_code respuesta_503));
                       MsgRespuestaServidor (text respuesta_503)])
       (Some respuesta_503)).
Proof.
  cbn zeta. assert (400 <= status_code respuesta_503 < 600) as H by (cbn; lia).
  split; [exact H|].
  apply (error_http_en_rango (mundo respuesta_503 Escribe) LATITUD LONGITUD
           "2024-01-01" "2024-01-02" "salida.csv" _ respuesta_503 eq_refl H).
Defined.

Lemma resumen_fiable_testigo :
  let w := mundo (respuesta_ok hourly_dos_horas) Escribe in
  In (MsgGuardados 2 ARCHIVO_SALIDA) (consola (snd (ejecutar w ∅))) ∧
  ARCHIVO_SALIDA = ARCHIVO_SALIDA ∧
  (∃ df, archivos (snd (ejecutar w ∅)) !! ARCHIVO_SALIDA = Some (tabla_csv df) ∧
         2%nat = len df ∧ length (tabla_csv df) = 3%nat) ∧
  (∀ e, ¬ In (MsgErrorHTTP e) (consola (snd (ejecutar w ∅)))) ∧
  (∀ e, ¬ In (MsgErrorInesperado e) (consola (snd (ejecutar w ∅)))).
Proof.
  cbn zeta.
  assert (In (MsgGuardados 2 ARCHIVO_SALIDA)
            (consola (snd (ejecutar (mundo (respuesta_ok hourly_dos_horas) Escribe) ∅)))) as H
    by pertenece.
  split; [exact H|].
  apply (resumen_fiable (mundo (respuesta_ok hourly_dos_horas) Escribe) ∅ 2 ARCHIVO_SALIDA H).
Defined.


Lemma minuto_sin_perdida_testigo :
  let t := Fecha.mk_datetime 2024 1 2 3 4 5 in
  let t' := Fecha.mk_datetime 2024 1 2 3 4 59 in
  Fecha.valido t = true ∧ Fecha.valido t' = true ∧
  (Fecha.strftime t "%Y-%m-%dT%H:%M" = Fecha.strftime t' "%Y-%m-%dT%H:%M"
   ↔ Fecha.al_minuto t = Fecha.al_minuto t').
Proof.
  cbn zeta. split; [reflexivity|]. split; [reflexivity|].
  apply (minuto_sin_perdida (Fecha.mk_datetime 2024 1 2 3 4 5)
           (Fecha.mk_datetime 2024 1 2 3 4 59)); reflexivity.
Defined.

Lemma fecha_fin_por_dia_testigo :
  let w := mundo_en (Fecha.mk_datetime 2025 3 10 0 0 1) respuesta_400 Escribe in
  let w' := mundo_en (Fecha.mk_datetime 2025 3 10 23 59 59) respuesta_400 Escribe in
  Fecha.valido (now w) = true ∧ Fecha.valido (now w') = true ∧
  (FECHA_FIN w = FECHA_FIN w'
   ↔ Fecha.year (now w) = Fecha.year (now w') ∧
     Fecha.month (now w) = Fecha.month (now w') ∧
     Fecha.day (now w) = Fecha.day (now w')).
Proof.
  cbn zeta. split; [reflexivity|]. split; [reflexivity|].
  apply (fecha_fin_por_dia
           (mundo_en (Fecha.mk_datetime 2025 3 10 0 0 1) respuesta_400 Escribe)
           (mundo_en (Fecha.mk_datetime 2025 3 10 23 59 59) respuesta_400 Escribe));
    reflexivity.
Defined.
